(** * The gradebook search widget (core_grades/searchwidget/basewidget)

    A shallow embedding of [grade/amd/src/searchwidget/basewidget.js]:
    the functions of the module ([init], [registerListenerEvents],
    [showLoader], [debounceCallee], [renderSearchResults],
    [promisesAndResolvers]) and the two event handlers that
    [registerListenerEvents] installs, over an explicit model of the part of
    the browser they touch (the widget container, promises, the template
    service, the notification service and the debounce timer). *)

From Stdlib Require Import String List Arith Bool Lia.
Import ListNotations.
Open Scope string_scope.
Open Scope list_scope.

(** ** JavaScript values *)

(** The values that travel through the widget: the dataset, what the search
    function returns, template contexts, promise results and thrown errors.
    The universe holds plain data and, for what a resolve function may be
    handed, promises and other thenables, each described by what its [then]
    does with the callbacks it is given: it passes a value to [onFulfilled],
    passes a reason to [onRejected], or calls neither.  An object never has a
    callable [then] of its own. *)
#[warnings="-register-all"]
Inductive JsVal : Type :=
| JUndefined
| JNull
| JStr (s : string)
| JArr (items : list JsVal)
| JObj (fields : list (string * JsVal))
| JThenFulfils (x : JsVal)
| JThenRejects (reason : JsVal)
| JThenSilent.

(** The [TypeError] a browser raises when a property of [null] is used. *)
Definition TypeError (what : string) : JsVal :=
  JObj [("name", JStr "TypeError"); ("message", JStr what)].

Definition Html := string.
Definition Js := string.

(** How a promise has settled; also the result of running a piece of code
    that may throw.  A call of an [async] function runs its body and hands
    back such a settled promise. *)
Inductive Settled (A : Type) : Type :=
| Fulfilled (a : A)
| Rejected (e : JsVal).
Arguments Fulfilled {A} a.
Arguments Rejected {A} e.

(** ** The widget container *)

(** Modelled from the spec: the module [core_grades/searchwidget/selectors]
    is not part of the sources.  Following the data model of the spec, a
    container has four addressable parts, and each selector names one of
    them. *)
Inductive Element : Type :=
| unsearchableContentRegion
| searchResultsRegion
| searchControl
| clearSearchControl.

Module Selectors.
Module regions.
Definition unsearchableContent : Element := unsearchableContentRegion.
Definition searchResults : Element := searchResultsRegion.
End regions.
Module actions.
Definition search : Element := searchControl.
Definition clearSearch : Element := clearSearchControl.
End actions.
End Selectors.

(** The search function handed to the widget is a factory: [searchFunc()]
    yields the function that filters [(data, searchValue)]. *)
Definition SearchFunction := JsVal -> string -> JsVal.
Definition SearchFactory := unit -> SearchFunction.

(** What the two handlers of [registerListenerEvents] close over: the three
    nodes found by [querySelector] ([None] is JavaScript's [null]; the search
    input is never [null] behind the guard), the dataset and the factory. *)
Record Closure : Type := {
  cSearchResultsContainer : option Element;
  cSearchInput : Element;
  cClearSearchButton : option Element;
  cData : JsVal;
  cSearchFunc : SearchFactory
}.

(** Modelled from the spec: [debounce] of [core/utils] is not part of the
    sources; the spec gives it standard trailing-edge semantics.  A debounced
    function owns one timer: [timeout] is the time (in ms) at which the
    pending call of [callee] is due, if one is pending. *)
Record Debounced : Type := {
  wait : nat;
  timeout : option nat;
  callee : Closure
}.

Record HTMLInputElement : Type := {
  value : string;
  inputListeners : list Debounced
}.

Record HTMLButtonElement : Type := {
  classList : list string;
  clickListeners : list Closure
}.

(** The subtree below [widgetContentContainer]: the markup of the two regions
    and the two controls, each absent when the body has no such node. *)
Record Widget : Type := {
  unsearchableContent : option Html;
  searchResults : option Html;
  search : option HTMLInputElement;
  clearSearch : option HTMLButtonElement
}.

(** Body markup in parsed form: what a body contributes to the four parts. *)
Record Markup : Type := {
  unsearchableMarkup : option Html;
  resultsMarkup : option Html;
  searchMarkup : option string;
  clearMarkup : option (list string)
}.

(** Assigning [innerHTML] builds fresh nodes: no listener survives. *)
Definition mount (m : Markup) : Widget :=
  {| unsearchableContent := unsearchableMarkup m;
     searchResults := resultsMarkup m;
     search := option_map (fun v => {| value := v; inputListeners := [] |})
                          (searchMarkup m);
     clearSearch := option_map (fun c => {| classList := c; clickListeners := [] |})
                               (clearMarkup m) |}.

Definition is_some {A} (o : option A) : bool :=
  match o with Some _ => true | None => false end.

Definition present (el : Element) (wd : Widget) : bool :=
  match el with
  | unsearchableContentRegion => is_some (unsearchableContent wd)
  | searchResultsRegion => is_some (searchResults wd)
  | searchControl => is_some (search wd)
  | clearSearchControl => is_some (clearSearch wd)
  end.

(** ** Promises *)

(** What [init] attaches to the body promise: its [then] callback followed by
    [catch(Notification.exception)], closed over the arguments of [init]. *)
Record Reaction : Type := {
  reactionData : JsVal;
  reactionSearchFunc : SearchFactory;
  reactionUnsearchable : option string
}.

(** [Locked]: resolved with a thenable that has not called back; such a
    promise is still pending, and deaf to its resolve function. *)
Inductive PromiseState : Type :=
| Pending
| Settle (s : Settled JsVal)
| Locked.

Record PromiseCell : Type := {
  pstate : PromiseState;
  reactions : list Reaction
}.

Definition PromiseId := nat.

(** ** The world *)

Inductive Event : Type :=
| TemplateRender (name : string) (context : JsVal)
| NodeReplaced (target : option Element) (html : Html) (js : Js)
| StopPropagation
| ReplaceRequested (target : option Element) (html : Html) (js : Js).

Record World : Type := {
  container : Widget;
  activeElement : option Element;
  promises : list PromiseCell;
  notifications : list JsVal;
  trace : list Event;
  unhandled : list JsVal
}.

Definition with_container (f : Widget -> Widget) (w : World) : World :=
  {| container := f (container w);
     activeElement := activeElement w;
     promises := promises w;
     notifications := notifications w;
     trace := trace w;
     unhandled := unhandled w |}.

Definition with_activeElement (a : option Element) (w : World) : World :=
  {| container := container w;
     activeElement := a;
     promises := promises w;
     notifications := notifications w;
     trace := trace w;
     unhandled := unhandled w |}.

Definition with_promises (f : list PromiseCell -> list PromiseCell) (w : World) : World :=
  {| container := container w;
     activeElement := activeElement w;
     promises := f (promises w);
     notifications := notifications w;
     trace := trace w;
     unhandled := unhandled w |}.

Definition notify (e : JsVal) (w : World) : World :=
  {| container := container w;
     activeElement := activeElement w;
     promises := promises w;
     notifications := notifications w ++ [e];
     trace := trace w;
     unhandled := unhandled w |}.

Definition record (ev : Event) (w : World) : World :=
  {| container := container w;
     activeElement := activeElement w;
     promises := promises w;
     notifications := notifications w;
     trace := trace w ++ [ev];
     unhandled := unhandled w |}.

Definition drop_rejection (e : JsVal) (w : World) : World :=
  {| container := container w;
     activeElement := activeElement w;
     promises := promises w;
     notifications := notifications w;
     trace := trace w;
     unhandled := unhandled w ++ [e] |}.

(** ** Code that runs in the world and may throw *)

Definition M (A : Type) : Type := World -> Settled A * World.

Definition ret {A} (a : A) : M A := fun w => (Fulfilled a, w).

Definition throw {A} (e : JsVal) : M A := fun w => (Rejected e, w).

Definition bind {A B} (m : M A) (k : A -> M B) : M B :=
  fun w =>
    match m w with
    | (Fulfilled a, w') => k a w'
    | (Rejected e, w') => (Rejected e, w')
    end.

Notation "x <- m ;; k" := (bind m (fun x => k))
  (at level 61, m at next level, right associativity).
Notation "m ;;; k" := (bind m (fun _ => k))
  (at level 61, right associativity).

(** [await p]: the code after it runs when [p] is fulfilled; a rejection is
    thrown at the [await]. *)
Definition await {A} (p : M A) : M A := p.

(** A promise that is neither awaited nor returned: its rejection reaches
    nobody in the program. *)
Definition unawaited {A} (p : M A) : M unit :=
  fun w =>
    match p w with
    | (Fulfilled _, w') => (Fulfilled tt, w')
    | (Rejected e, w') => (Fulfilled tt, drop_rejection e w')
    end.

(** [p.catch(handler)] *)
Definition catch {A} (p : M A) (handler : JsVal -> M A) : M A :=
  fun w =>
    match p w with
    | (Fulfilled a, w') => (Fulfilled a, w')
    | (Rejected e, w') => handler e w'
    end.

Definition exec {A} (m : M A) (w : World) : World := snd (m w).
Definition result {A} (m : M A) (w : World) : Settled A := fst (m w).

(** ** DOM operations on the container *)

(** [widgetContentContainer.querySelector(selector)]: the node, or [null]. *)
Definition querySelector (selector : Element) : M (option Element) :=
  fun w => (Fulfilled (if present selector (container w) then Some selector else None), w).

(** [widgetContentContainer.innerHTML = bodyContent] *)
Definition set_container_innerHTML (body : Markup) : M unit :=
  fun w => (Fulfilled tt, with_container (fun _ => mount body) w).

Definition map_region (el : Element) (f : Html -> Html) (wd : Widget) : Widget :=
  match el with
  | unsearchableContentRegion =>
      {| unsearchableContent := option_map f (unsearchableContent wd);
         searchResults := searchResults wd;
         search := search wd;
         clearSearch := clearSearch wd |}
  | searchResultsRegion =>
      {| unsearchableContent := unsearchableContent wd;
         searchResults := option_map f (searchResults wd);
         search := search wd;
         clearSearch := clearSearch wd |}
  | searchControl | clearSearchControl => wd
  end.

Definition map_search (f : HTMLInputElement -> HTMLInputElement) (wd : Widget) : Widget :=
  {| unsearchableContent := unsearchableContent wd;
     searchResults := searchResults wd;
     search := option_map f (search wd);
     clearSearch := clearSearch wd |}.

Definition map_clearSearch (f : HTMLButtonElement -> HTMLButtonElement) (wd : Widget) : Widget :=
  {| unsearchableContent := unsearchableContent wd;
     searchResults := searchResults wd;
     search := search wd;
     clearSearch := option_map f (clearSearch wd) |}.

(** [node.innerHTML += html]; on [null] the property access throws. *)
Definition append_innerHTML (node : option Element) (html : Html) : M unit :=
  match node with
  | None => throw (TypeError "Cannot read properties of null (reading 'innerHTML')")
  | Some el => fun w => (Fulfilled tt, with_container (map_region el (fun old => String.append old html)) w)
  end.

(** [searchInput.value]: the search control is the only node with a value; a
    node that is no longer in the container reads as the empty string. *)
Definition get_value (node : Element) : M string :=
  fun w => (Fulfilled (match search (container w) with
                       | Some i => value i
                       | None => ""
                       end), w).

(** [searchInput.value = v] *)
Definition set_value (node : Element) (v : string) : M unit :=
  fun w => (Fulfilled tt,
            with_container
              (map_search (fun i => {| value := v; inputListeners := inputListeners i |})) w).

(** [searchInput.focus()] *)
Definition focus (node : Element) : M unit :=
  fun w => (Fulfilled tt, with_activeElement (Some node) w).

(** [DOMTokenList.add] and [DOMTokenList.remove] keep a set of tokens. *)
Definition token_add (c : string) (cs : list string) : list string :=
  if existsb (String.eqb c) cs then cs else cs ++ [c].

Definition token_remove (c : string) (cs : list string) : list string :=
  filter (fun x => negb (String.eqb c x)) cs.

Definition map_classList (f : list string -> list string) (b : HTMLButtonElement) : HTMLButtonElement :=
  {| classList := f (classList b); clickListeners := clickListeners b |}.

(** [clearSearchButton.classList.add(c)]; on [null] the access throws. *)
Definition classList_add (node : option Element) (c : string) : M unit :=
  match node with
  | None => throw (TypeError "Cannot read properties of null (reading 'classList')")
  | Some _ => fun w => (Fulfilled tt,
                        with_container (map_clearSearch (map_classList (token_add c))) w)
  end.

(** [clearSearchButton.classList.remove(c)] *)
Definition classList_remove (node : option Element) (c : string) : M unit :=
  match node with
  | None => throw (TypeError "Cannot read properties of null (reading 'classList')")
  | Some _ => fun w => (Fulfilled tt,
                        with_container (map_clearSearch (map_classList (token_remove c))) w)
  end.

(** [debounce(callee, wait)]: a fresh debounced function, no call pending. *)
Definition debounce (cl : Closure) (ms : nat) : Debounced :=
  {| wait := ms; timeout := None; callee := cl |}.

(** [searchInput.addEventListener('input', listener)] *)
Definition addEventListener_input (node : Element) (listener : Debounced) : M unit :=
  fun w => (Fulfilled tt,
            with_container
              (map_search (fun i => {| value := value i;
                                       inputListeners := inputListeners i ++ [listener] |})) w).

(** [clearSearchButton.addEventListener('click', listener)] *)
Definition addEventListener_click (node : option Element) (listener : Closure) : M unit :=
  match node with
  | None => throw (TypeError "Cannot read properties of null (reading 'addEventListener')")
  | Some _ => fun w => (Fulfilled tt,
                        with_container
                          (map_clearSearch
                             (fun b => {| classList := classList b;
                                          clickListeners := clickListeners b ++ [listener] |})) w)
  end.

(** [e.stopPropagation()] *)
Definition stopPropagation : M unit :=
  fun w => (Fulfilled tt, record StopPropagation w).

(** [Notification.exception(e)]: the global notification surface. *)
Definition Notification_exception (e : JsVal) : M unit :=
  fun w => (Fulfilled tt, notify e w).

(** ** The promise store *)

(** Whether a value is a promise or another thenable. *)
Definition is_thenable (v : JsVal) : bool :=
  match v with
  | JThenFulfils _ | JThenRejects _ | JThenSilent => true
  | _ => false
  end.

(** What resolving a promise with [v] leads to: a plain value fulfils it;
    a thenable is asked through its [then], and what it passes to
    [onFulfilled] is resolved in turn, what it passes to [onRejected] rejects
    the promise as it is; [None] when the thenable calls neither. *)
Fixpoint resolution (v : JsVal) : option (Settled JsVal) :=
  match v with
  | JThenFulfils x => resolution x
  | JThenRejects reason => Some (Rejected reason)
  | JThenSilent => None
  | _ => Some (Fulfilled v)
  end.

Fixpoint update_nth {A} (n : nat) (f : A -> A) (l : list A) : list A :=
  match l, n with
  | [], _ => []
  | x :: l', 0 => f x :: l'
  | x :: l', S n' => x :: update_nth n' f l'
  end.

Definition promise_state (p : PromiseId) (w : World) : option PromiseState :=
  option_map pstate (nth_error (promises w) p).

(** The [resolve] function that [new Promise] hands to its executor. *)
Inductive Resolver : Type :=
| ResolveFunction (p : PromiseId).

(** [new Promise(executor)]: a pending promise with no reactions, and the
    resolve function the executor receives. *)
Definition new_Promise : M (PromiseId * Resolver) :=
  fun w =>
    let p := length (promises w) in
    (Fulfilled (p, ResolveFunction p),
     with_promises (fun ps => ps ++ [{| pstate := Pending; reactions := [] |}]) w).

(** What the module returns from [promisesAndResolvers]. *)
Record BodyPromise : Type := {
  bodyPromiseResolver : Resolver;
  bodyPromise : PromiseId
}.

(** The module [promisesAndResolvers]: the executor stores [resolve] in
    [bodyPromiseResolver]. *)
Definition promisesAndResolvers : M BodyPromise :=
  pr <- new_Promise ;;
  ret {| bodyPromiseResolver := snd pr; bodyPromise := fst pr |}.

Section BaseWidget.

(** The browser's HTML parser behind [innerHTML = bodyContent] (with the
    conversion of the value to a string). *)
Variable parseHTML : JsVal -> Markup.

(** Modelled from the spec: [core/templates] is not part of the sources.
    [renderForPromise(templateName, data)] yields [{html, js}] or fails;
    [replaceNodeContents(container, html, js)] replaces the contents of the
    node while it is called (on no node it replaces nothing) and runs the
    template's js; the trace keeps every call of the two. *)
Variable renderTemplate : string -> JsVal -> Settled (Html * Js).

Definition Templates_renderForPromise (templateName : string) (context : JsVal)
  : M (Html * Js) :=
  fun w => (renderTemplate templateName context,
            record (TemplateRender templateName context) w).

Definition Templates_replaceNodeContents (node : option Element) (html : Html) (js : Js)
  : M unit :=
  fun w =>
    (Fulfilled tt,
     record (NodeReplaced node html js)
       match node with
       | Some el => with_container (map_region el (fun _ => html)) w
       | None => w
       end).

(** [showLoader]: the template is awaited, the replacement is not. *)
Definition showLoader (container : option Element) : M unit :=
  r <- await (Templates_renderForPromise "core_grades/searchwidget/loading" (JObj [])) ;;
  unawaited (Templates_replaceNodeContents container (fst r) (snd r)).

Definition debounceCallee (searchValue : string) (data : JsVal)
           (searchFunction : SearchFunction) : JsVal :=
  if (0 <? String.length searchValue)%nat
  then searchFunction data searchValue
  else data.

Definition renderSearchResults (searchResultsContainer : option Element)
           (searchResultsData : JsVal) : M unit :=
  let templateData := JObj [("searchresults", searchResultsData)] in
  r <- await (Templates_renderForPromise "core_grades/searchwidget/searchresults"
                                         templateData) ;;
  await (Templates_replaceNodeContents searchResultsContainer (fst r) (snd r)).

(** The callback that [registerListenerEvents] debounces for 'input'. *)
Definition inputHandler (cl : Closure) : M unit :=
  v <- get_value (cSearchInput cl) ;;
  (if (0 <? String.length v)%nat
   then classList_remove (cClearSearchButton cl) "d-none"
   else classList_add (cClearSearchButton cl) "d-none") ;;;
  searchValue <- get_value (cSearchInput cl) ;;
  await (renderSearchResults (cSearchResultsContainer cl)
           (debounceCallee searchValue (cData cl) (cSearchFunc cl tt))).

(** The 'click' listener of the clear button. *)
Definition clearHandler (cl : Closure) : M unit :=
  stopPropagation ;;;
  set_value (cSearchInput cl) "" ;;;
  focus (cSearchInput cl) ;;;
  classList_add (cClearSearchButton cl) "d-none" ;;;
  searchValue <- get_value (cSearchInput cl) ;;
  await (renderSearchResults (cSearchResultsContainer cl)
           (debounceCallee searchValue (cData cl) (cSearchFunc cl tt))).

Definition registerListenerEvents (data : JsVal) (searchFunc : SearchFactory) : M unit :=
  searchResultsContainer <- querySelector Selectors.regions.searchResults ;;
  searchInput <- querySelector Selectors.actions.search ;;
  match searchInput with
  | None => ret tt
  | Some searchInput =>
      focus searchInput ;;;
      clearSearchButton <- querySelector Selectors.actions.clearSearch ;;
      let cl := {| cSearchResultsContainer := searchResultsContainer;
                   cSearchInput := searchInput;
                   cClearSearchButton := clearSearchButton;
                   cData := data;
                   cSearchFunc := searchFunc |} in
      addEventListener_input searchInput (debounce cl 300) ;;;
      addEventListener_click clearSearchButton cl
  end.

(** JavaScript truthiness of a [string|null]. *)
Definition truthy (s : option string) : bool :=
  match s with
  | Some s => (0 <? String.length s)%nat
  | None => false
  end.

(** The [then] callback of [init]. *)
Definition onBodyContent (data : JsVal) (searchFunc : SearchFactory)
           (unsearchableContent : option string) (bodyContent : JsVal) : M unit :=
  set_container_innerHTML (parseHTML bodyContent) ;;;
  (if truthy unsearchableContent
   then
     unsearchableContentContainer <- querySelector Selectors.regions.unsearchableContent ;;
     append_innerHTML unsearchableContentContainer
                      (match unsearchableContent with Some s => s | None => "" end)
   else ret tt) ;;;
  searchResultsContainer <- querySelector Selectors.regions.searchResults ;;
  await (showLoader searchResultsContainer) ;;;
  await (renderSearchResults searchResultsContainer data) ;;;
  registerListenerEvents data searchFunc.

(** [bodyPromise.then(callback).catch(Notification.exception)], once the
    body promise has settled as [s]. *)
Definition react (r : Reaction) (s : Settled JsVal) : M unit :=
  catch
    match s with
    | Fulfilled bodyContent =>
        onBodyContent (reactionData r) (reactionSearchFunc r)
                      (reactionUnsearchable r) bodyContent
    | Rejected e => throw e
    end
    Notification_exception.

(** The reactions of a promise, each run in one go.  For one reaction this
    is where every interleaving of its chain ends when the template service
    replaces during the call; the callbacks of several reactions interleave
    at their [await]s, which [Interleaved] follows and this function does
    not. *)
Fixpoint run_reactions (rs : list Reaction) (s : Settled JsVal) : M unit :=
  match rs with
  | [] => ret tt
  | r :: rs' => unawaited (react r s) ;;; run_reactions rs' s
  end.

(** Attaching the chain: it waits on a pending promise and runs on a
    settled one. *)
Definition then_catch (p : PromiseId) (r : Reaction) : M unit :=
  fun w =>
    match nth_error (promises w) p with
    | Some c =>
        match pstate c with
        | Pending | Locked =>
            (Fulfilled tt,
             with_promises
               (update_nth p (fun c => {| pstate := pstate c;
                                          reactions := reactions c ++ [r] |})) w)
        | Settle s => react r s w
        end
    | None => (Fulfilled tt, w)
    end.

(** A pending promise settles once, and its reactions then run in the order
    they were attached; settling again does nothing. *)
Definition settle (p : PromiseId) (s : Settled JsVal) : M unit :=
  fun w =>
    match nth_error (promises w) p with
    | Some c =>
        match pstate c with
        | Pending =>
            run_reactions (reactions c) s
              (with_promises
                 (update_nth p (fun _ => {| pstate := Settle s; reactions := [] |})) w)
        | Settle _ | Locked => (Fulfilled tt, w)
        end
    | None => (Fulfilled tt, w)
    end.

(** A pending promise that is resolved with a silent thenable is locked. *)
Definition lock (p : PromiseId) : M unit :=
  fun w =>
    (Fulfilled tt,
     with_promises
       (update_nth p (fun c => match pstate c with
                               | Pending => {| pstate := Locked; reactions := reactions c |}
                               | _ => c
                               end)) w).

(** Calling the resolve function: [bodyPromiseResolver(v)].  A plain value
    fulfils the promise; a promise or thenable is adopted. *)
Definition call_resolver (r : Resolver) (v : JsVal) : M unit :=
  match r with
  | ResolveFunction p =>
      match resolution v with
      | Some s => settle p s
      | None => lock p
      end
  end.

(** [init]: the chain is neither awaited nor returned, so the promise of
    [init] is fulfilled with [undefined] once the chain is attached. *)
Definition init (bodyPromise : PromiseId) (data : JsVal) (searchFunc : SearchFactory)
           (unsearchableContent : option string) : M unit :=
  unawaited (then_catch bodyPromise
               {| reactionData := data;
                  reactionSearchFunc := searchFunc;
                  reactionUnsearchable := unsearchableContent |}).

(** ** Events and the debounce timer *)

(** A call of the debounced function at time [now]: the pending call is
    cancelled and a new one is due after [wait]. *)
Definition call_debounced (now : nat) (d : Debounced) : Debounced :=
  {| wait := wait d; timeout := Some (now + wait d); callee := callee d |}.

Definition due (now : nat) (d : Debounced) : bool :=
  match timeout d with
  | Some t => (t <=? now)%nat
  | None => false
  end.

Definition disarm (now : nat) (d : Debounced) : Debounced :=
  if due now d then {| wait := wait d; timeout := None; callee := callee d |} else d.

Fixpoint run_callbacks (handler : Closure -> M unit) (cls : list Closure) : M unit :=
  match cls with
  | [] => ret tt
  | cl :: cls' => unawaited (handler cl) ;;; run_callbacks handler cls'
  end.

Definition map_inputListeners (f : Debounced -> Debounced) (i : HTMLInputElement)
  : HTMLInputElement :=
  {| value := value i; inputListeners := map f (inputListeners i) |}.

(** Time passes up to [now]: every timer due by then fires its callee. *)
Definition advance (now : nat) : M unit :=
  fun w =>
    let fired := match search (container w) with
                 | Some i => filter (due now) (inputListeners i)
                 | None => []
                 end in
    run_callbacks inputHandler (map callee fired)
      (with_container (map_search (map_inputListeners (disarm now))) w).

(** The user edits the search input at time [now], leaving [v] in it: the
    'input' event calls every debounced listener. *)
Definition input_event (now : nat) (v : string) : M unit :=
  advance now ;;;
  set_value Selectors.actions.search v ;;;
  fun w => (Fulfilled tt,
            with_container (map_search (map_inputListeners (call_debounced now))) w).

(** The user clicks the clear button. *)
Definition click_event : M unit :=
  fun w =>
    run_callbacks clearHandler
      match clearSearch (container w) with
      | Some b => clickListeners b
      | None => []
      end w.

Fixpoint play (events : list (nat * string)) : M unit :=
  match events with
  | [] => ret tt
  | (t, v) :: rest => input_event t v ;;; play rest
  end.

End BaseWidget.

(** ** What is observed of a run *)

Definition loadingTemplate : string := "core_grades/searchwidget/loading".
Definition searchresultsTemplate : string := "core_grades/searchwidget/searchresults".

Definition resultsContext (items : JsVal) : JsVal := JObj [("searchresults", items)].

Definition is_results_render (ev : Event) : bool :=
  match ev with
  | TemplateRender name _ => String.eqb name searchresultsTemplate
  | _ => false
  end.

(** The number of filter-and-render cycles that have started. *)
Definition cycles (w : World) : nat := length (filter is_results_render (trace w)).

(** ** Runs of [init] *)

(** A run of [init] on the body promise [p] that settles as [s], ending in
    [w']: either [init] is called while the promise is pending and the
    promise settles afterwards, or the promise has settled before the call. *)
Definition initialised (parseHTML : JsVal -> Markup)
           (renderTemplate : string -> JsVal -> Settled (Html * Js))
           (w : World) (p : PromiseId) (data : JsVal) (searchFunc : SearchFactory)
           (unsearchableContent : option string) (s : Settled JsVal) (w' : World) : Prop :=
  (nth_error (promises w) p = Some {| pstate := Pending; reactions := [] |} /\
   w' = exec (init parseHTML renderTemplate p data searchFunc unsearchableContent ;;;
              settle parseHTML renderTemplate p s) w)
  \/
  (promise_state p w = Some (Settle s) /\
   w' = exec (init parseHTML renderTemplate p data searchFunc unsearchableContent) w).

(** Two worlds that differ in the promise store only. *)
Definition same_page (w0 w : World) : Prop :=
  container w0 = container w /\
  activeElement w0 = activeElement w /\
  notifications w0 = notifications w /\
  trace w0 = trace w /\
  unhandled w0 = unhandled w.

(** ** The debounced input *)

(** The search input holding [v] with the one debounced listener of the
    widget, its call of [cl] due at [pending]. *)
Definition typed (cl : Closure) (pending : option nat) (v : string) (w : World) : World :=
  with_container
    (map_search (fun _ => {| value := v;
                             inputListeners := [{| wait := 300;
                                                   timeout := pending;
                                                   callee := cl |}] |})) w.

(** ** A concrete page, used to run the definitions *)

Module Demo.

Definition lower (c : Ascii.ascii) : Ascii.ascii :=
  let n := Ascii.nat_of_ascii c in
  if ((65 <=? n) && (n <=? 90))%nat then Ascii.ascii_of_nat (n + 32) else c.

Fixpoint lowercase (s : string) : string :=
  match s with
  | EmptyString => EmptyString
  | String c s' => String (lower c) (lowercase s')
  end.

Definition contains (needle hay : string) : bool :=
  is_some (String.index 0 (lowercase needle) (lowercase hay)).

(** A caller's search function: case-insensitive substring match. *)
Definition searchFunc : SearchFactory :=
  fun _ data searchValue =>
    match data with
    | JArr items =>
        JArr (filter (fun x => match x with
                               | JStr s => contains searchValue s
                               | _ => false
                               end) items)
    | other => other
    end.

Definition names : JsVal := JArr [JStr "Alice"; JStr "Bob"; JStr "Charlie"].

Definition fullBody : Markup :=
  {| unsearchableMarkup := Some "<h5>Other</h5>";
     resultsMarkup := Some "";
     searchMarkup := Some "";
     clearMarkup := Some ["btn"; "d-none"] |}.

(** A body that has no unsearchable-content region. *)
Definition plainBody : Markup :=
  {| unsearchableMarkup := None;
     resultsMarkup := Some "";
     searchMarkup := Some "";
     clearMarkup := Some ["btn"; "d-none"] |}.

Definition emptyBody : Markup :=
  {| unsearchableMarkup := None;
     resultsMarkup := None;
     searchMarkup := None;
     clearMarkup := None |}.

Definition parseHTML (bodyContent : JsVal) : Markup :=
  match bodyContent with
  | JStr s =>
      if String.eqb s "<widget/>" then fullBody
      else if String.eqb s "<widget-plain/>" then plainBody
      else emptyBody
  | _ => emptyBody
  end.

Fixpoint listItems (items : list JsVal) : Html :=
  match items with
  | [] => ""
  | JStr s :: rest => String.append (String.append "<li>" s) (String.append "</li>" (listItems rest))
  | _ :: rest => String.append "<li/>" (listItems rest)
  end.

Definition renderTemplate (templateName : string) (context : JsVal) : Settled (Html * Js) :=
  if String.eqb templateName loadingTemplate then Fulfilled ("<loading/>", "")
  else match context with
       | JObj [(_, JArr items)] => Fulfilled (listItems items, "")
       | _ => Fulfilled ("", "")
       end.

Definition renderError : JsVal := JStr "template not found".

(** A template service whose loading template cannot be rendered. *)
Definition brokenTemplate (templateName : string) (context : JsVal) : Settled (Html * Js) :=
  if String.eqb templateName loadingTemplate then Rejected renderError
  else renderTemplate templateName context.

(** The page before the widget is built: the container is still empty. *)
Definition page : World :=
  {| container := {| unsearchableContent := None;
                     searchResults := None;
                     search := None;
                     clearSearch := None |};
     activeElement := None;
     promises := [];
     notifications := [];
     trace := [];
     unhandled := [] |}.

(** The same page with a pending body promise. *)
Definition waiting : World := exec promisesAndResolvers page.

(** The widget once [init] has run on the full body. *)
Definition ready : World :=
  exec (init parseHTML renderTemplate 0 names searchFunc None ;;;
        settle parseHTML renderTemplate 0 (Fulfilled (JStr "<widget/>"))) waiting.

(** The body promise rejects after [init] has been called. *)
Definition rejected : World :=
  exec (init parseHTML renderTemplate 0 names searchFunc None ;;;
        settle parseHTML renderTemplate 0 (Rejected (JStr "network"))) waiting.

(** Content for the unsearchable region, and a body without that region. *)
Definition missingRegion : World :=
  exec (init parseHTML renderTemplate 0 names searchFunc (Some "<p>Help</p>") ;;;
        settle parseHTML renderTemplate 0 (Fulfilled (JStr "<widget-plain/>"))) waiting.

(** The empty string as unsearchable content, on the same body. *)
Definition emptyContent : World :=
  exec (init parseHTML renderTemplate 0 names searchFunc (Some "") ;;;
        settle parseHTML renderTemplate 0 (Fulfilled (JStr "<widget-plain/>"))) waiting.

(** [init] and the arrival of the body, with the broken template service. *)
Definition brokenInit : M unit :=
  init parseHTML brokenTemplate 0 names searchFunc None.

Definition brokenBody : M unit :=
  settle parseHTML brokenTemplate 0 (Fulfilled (JStr "<widget/>")).

(** The closure that [registerListenerEvents] builds on the demo page. *)
Definition closure : Closure :=
  {| cSearchResultsContainer := Some searchResultsRegion;
     cSearchInput := searchControl;
     cClearSearchButton := Some clearSearchControl;
     cData := names;
     cSearchFunc := searchFunc |}.

(** The demo widget after the user has typed "a" and paused. *)
Definition searching : World :=
  exec (play renderTemplate [(1000, "a")] ;;; advance renderTemplate 1300) ready.

(** ... and after a click on the clear button. *)
Definition cleared : World := exec (clearHandler renderTemplate closure) searching.

(** Three keystrokes within 250ms, and the widget at a later time. *)
Definition burst : list (nat * string) := [(1000, "a"); (1100, "al"); (1250, "ali")].

Definition at_time (T : nat) : World :=
  exec (play renderTemplate burst ;;; advance renderTemplate T) ready.

End Demo.

(** ** Interleaving *)

(** The definitions above run every [async] body to its end, one after the
    other.  [Interleaved] keeps the places where a body is suspended: the
    chain of [init] and the two functions it awaits are written again as
    resumable tasks, and a schedule decides which suspended task goes on
    next. *)
Module Interleaved.

(** An [async] body that returns nothing: synchronous code ([Step]), an
    awaited [Templates.renderForPromise], a [Templates.replaceNodeContents]
    that finishes later, an [await] that is answered in a later turn, and a
    call whose promise is neither awaited nor returned. *)
Inductive Async : Type :=
| Return
| Throw (e : JsVal)
| Step (B : Type) (op : M B) (k : B -> Async)
| AwaitRender (templateName : string) (context : JsVal) (k : Html * Js -> Async)
| AwaitReplace (node : option Element) (html : Html) (js : Js) (k : Async)
| AwaitSettled (k : Async)
| Unawaited (call : Async) (k : Async).
Arguments Step {B} op k.

(** The body [a], then [k]. *)
Fixpoint seq (a k : Async) : Async :=
  match a with
  | Return => k
  | Throw e => Throw e
  | Step op f => Step op (fun b => seq (f b) k)
  | AwaitRender templateName context f =>
      AwaitRender templateName context (fun r => seq (f r) k)
  | AwaitReplace node html js a' => AwaitReplace node html js (seq a' k)
  | AwaitSettled a' => AwaitSettled (seq a' k)
  | Unawaited call a' => Unawaited call (seq a' k)
  end.

(** [await call; k]: the call runs, and [k] goes on in a later turn, once the
    promise of the call is fulfilled; a rejection is thrown at the [await]. *)
Definition await (call k : Async) : Async := seq call (AwaitSettled k).

(** Where the rejection of a task ends: in the [catch] of the chain of
    [init], or nowhere. *)
Inductive Sink : Type :=
| ToNotification
| Unhandled.

Definition reject (sink : Sink) (e : JsVal) (w : World) : World :=
  match sink with
  | ToNotification => notify e w
  | Unhandled => drop_rejection e w
  end.

(** A suspended task: what it waits for and how it goes on. *)
Inductive Waiting : Type :=
| WaitRender (templateName : string) (context : JsVal) (k : Html * Js -> Async)
             (sink : Sink)
| WaitReplace (node : option Element) (html : Html) (js : Js) (k : Async) (sink : Sink)
| WaitTurn (k : Async) (sink : Sink).

Definition Config : Type := World * list Waiting.

(** A task runs until it suspends or ends.  A call to the template service
    is recorded when it is made. *)
Fixpoint run (t : Async) (sink : Sink) (w : World) : Config :=
  match t with
  | Return => (w, [])
  | Throw e => (reject sink e w, [])
  | Step op k =>
      match op w with
      | (Fulfilled b, w') => run (k b) sink w'
      | (Rejected e, w') => (reject sink e w', [])
      end
  | AwaitRender templateName context k =>
      (record (TemplateRender templateName context) w,
       [WaitRender templateName context k sink])
  | AwaitReplace node html js k =>
      (record (ReplaceRequested node html js) w, [WaitReplace node html js k sink])
  | AwaitSettled k => (w, [WaitTurn k sink])
  | Unawaited call k =>
      let (w1, ws1) := run call Unhandled w in
      let (w2, ws2) := run k sink w1 in
      (w2, ws1 ++ ws2)
  end.

Fixpoint remove_nth {A} (n : nat) (l : list A) : list A :=
  match l, n with
  | [], _ => []
  | _ :: l', 0 => l'
  | x :: l', S n' => x :: remove_nth n' l'
  end.

Section Widget.

Variable parseHTML : JsVal -> Markup.
Variable renderTemplate : string -> JsVal -> Settled (Html * Js).

(** Modelled from the spec: [core/templates] is not part of the sources, and
    the spec gives [replaceNodeContents] a promise as its result.  Either the
    contents are replaced while the function is called ([deferredReplace] is
    [false]), or the call only requests the replacement, which is done when
    the promise is fulfilled. *)
Variable deferredReplace : bool.

Definition replaceNodeContents (node : option Element) (html : Html) (js : Js) : Async :=
  if deferredReplace
  then AwaitReplace node html js Return
  else Step (Templates_replaceNodeContents node html js) (fun _ => Return).

Definition showLoader (container : option Element) : Async :=
  AwaitRender "core_grades/searchwidget/loading" (JObj [])
    (fun r => Unawaited (replaceNodeContents container (fst r) (snd r)) Return).

Definition renderSearchResults (searchResultsContainer : option Element)
           (searchResultsData : JsVal) : Async :=
  let templateData := JObj [("searchresults", searchResultsData)] in
  AwaitRender "core_grades/searchwidget/searchresults" templateData
    (fun r => await (replaceNodeContents searchResultsContainer (fst r) (snd r)) Return).

(** The [then] callback of [init]. *)
Definition onBodyContent (data : JsVal) (searchFunc : SearchFactory)
           (unsearchableContent : option string) (bodyContent : JsVal) : Async :=
  Step (set_container_innerHTML (parseHTML bodyContent)) (fun _ =>
  Step (if truthy unsearchableContent
        then
          unsearchableContentContainer <- querySelector Selectors.regions.unsearchableContent ;;
          append_innerHTML unsearchableContentContainer
                           (match unsearchableContent with Some s => s | None => "" end)
        else ret tt) (fun _ =>
  Step (querySelector Selectors.regions.searchResults) (fun searchResultsContainer =>
  await (showLoader searchResultsContainer)
    (await (renderSearchResults searchResultsContainer data)
       (Step (registerListenerEvents data searchFunc) (fun _ => Return)))))).

(** A suspended task goes on: the template service answers, the requested
    replacement is done, or the awaited promise has been fulfilled. *)
Definition resume (wt : Waiting) (w : World) : Config :=
  match wt with
  | WaitRender templateName context k sink =>
      match renderTemplate templateName context with
      | Fulfilled r => run (k r) sink w
      | Rejected e => (reject sink e w, [])
      end
  | WaitReplace node html js k sink =>
      run k sink (exec (Templates_replaceNodeContents node html js) w)
  | WaitTurn k sink => run k sink w
  end.

(** One turn: the suspended task at position [i] goes on, and what it
    suspends on joins the others; a position that holds no task changes
    nothing. *)
Definition turn (i : nat) (c : Config) : Config :=
  match nth_error (snd c) i with
  | Some wt =>
      let (w', ws) := resume wt (fst c) in
      (w', remove_nth i (snd c) ++ ws)
  | None => c
  end.

Fixpoint schedule (turns : list nat) (c : Config) : Config :=
  match turns with
  | [] => c
  | i :: rest => schedule rest (turn i c)
  end.

(** [bodyPromise.then(callback).catch(Notification.exception)] starts, once
    the body promise has settled as [s]: the callback runs up to its first
    suspension. *)
Definition start (r : Reaction) (s : Settled JsVal) (c : Config) : Config :=
  match s with
  | Fulfilled bodyContent =>
      let (w', ws) := run (onBodyContent (reactionData r) (reactionSearchFunc r)
                                         (reactionUnsearchable r) bodyContent)
                          ToNotification (fst c) in
      (w', snd c ++ ws)
  | Rejected e => (notify e (fst c), snd c)
  end.

Definition init (bodyPromise : PromiseId) (data : JsVal) (searchFunc : SearchFactory)
           (unsearchableContent : option string) (c : Config) : Config :=
  let r := {| reactionData := data;
              reactionSearchFunc := searchFunc;
              reactionUnsearchable := unsearchableContent |} in
  match nth_error (promises (fst c)) bodyPromise with
  | Some cell =>
      match pstate cell with
      | Pending | Locked =>
          (with_promises
             (update_nth bodyPromise
                         (fun cell => {| pstate := pstate cell;
                                         reactions := reactions cell ++ [r] |}))
             (fst c),
           snd c)
      | Settle s => start r s c
      end
  | None => c
  end.

(** A pending promise settles: its reactions start in the order they were
    attached, each running up to its first suspension. *)
Definition settle (p : PromiseId) (s : Settled JsVal) (c : Config) : Config :=
  match nth_error (promises (fst c)) p with
  | Some cell =>
      match pstate cell with
      | Pending =>
          fold_left (fun c r => start r s c) (reactions cell)
                    (with_promises
                       (update_nth p (fun _ => {| pstate := Settle s; reactions := [] |}))
                       (fst c),
                     snd c)
      | Settle _ | Locked => c
      end
  | None => c
  end.

(** A run of [init] on the body promise [p] that is fulfilled with
    [bodyContent], and the configuration [c] it has reached after the turns
    of a schedule. *)
Definition reached (w : World) (p : PromiseId) (data : JsVal) (searchFunc : SearchFactory)
           (unsearchableContent : option string) (bodyContent : JsVal)
           (turns : list nat) (c : Config) : Prop :=
  (nth_error (promises w) p = Some {| pstate := Pending; reactions := [] |} /\
   c = schedule turns
         (settle p (Fulfilled bodyContent)
                 (init p data searchFunc unsearchableContent (w, []))))
  \/
  (promise_state p w = Some (Settle (Fulfilled bodyContent)) /\
   c = schedule turns (init p data searchFunc unsearchableContent (w, []))).

(** The callback of [init] up to its first [await]: the body is injected,
    the unsearchable content appended, the results region looked up. *)
Definition injectBody (unsearchableContent : option string) (bodyContent : JsVal)
  : M (option Element) :=
  set_container_innerHTML (parseHTML bodyContent) ;;;
  (if truthy unsearchableContent
   then
     unsearchableContentContainer <- querySelector Selectors.regions.unsearchableContent ;;
     append_innerHTML unsearchableContentContainer
                      (match unsearchableContent with Some s => s | None => "" end)
   else ret tt) ;;;
  querySelector Selectors.regions.searchResults.

(** What is left of the callback after [await showLoader(...)], and after
    [await renderSearchResults(...)]. *)
Definition afterResults (data : JsVal) (searchFunc : SearchFactory) : Async :=
  Step (registerListenerEvents data searchFunc) (fun _ => Return).

Definition afterLoader (c : option Element) (data : JsVal) (searchFunc : SearchFactory)
  : Async :=
  await (renderSearchResults c data) (afterResults data searchFunc).

(** The places where the callback and the replacements it has requested can
    be suspended. *)
Inductive Stage : Type :=
| LoaderRender
| LoaderReplace (html : Html) (js : Js)
| LoaderShown
| ResultsRender
| ResultsReplace (html : Html) (js : Js)
| ResultsShown
| ResultsDone.

(** The suspended task of a stage, for the results node [c] that the
    callback holds. *)
Definition task (c : option Element) (data : JsVal) (searchFunc : SearchFactory)
           (st : Stage) : Waiting :=
  match st with
  | LoaderRender =>
      WaitRender "core_grades/searchwidget/loading" (JObj [])
        (fun r => seq (Unawaited (replaceNodeContents c (fst r) (snd r)) Return)
                      (AwaitSettled (afterLoader c data searchFunc)))
        ToNotification
  | LoaderReplace html js => WaitReplace c html js Return Unhandled
  | LoaderShown => WaitTurn (afterLoader c data searchFunc) ToNotification
  | ResultsRender =>
      WaitRender "core_grades/searchwidget/searchresults"
        (JObj [("searchresults", data)])
        (fun r => seq (await (replaceNodeContents c (fst r) (snd r)) Return)
                      (AwaitSettled (afterResults data searchFunc)))
        ToNotification
  | ResultsReplace html js =>
      WaitReplace c html js (AwaitSettled (AwaitSettled (afterResults data searchFunc)))
                  ToNotification
  | ResultsShown => WaitTurn (AwaitSettled (afterResults data searchFunc)) ToNotification
  | ResultsDone => WaitTurn (afterResults data searchFunc) ToNotification
  end.

(** The stages that follow when the task of a stage goes on. *)
Definition next (data : JsVal) (st : Stage) : list Stage :=
  match st with
  | LoaderRender =>
      match renderTemplate "core_grades/searchwidget/loading" (JObj []) with
      | Fulfilled r =>
          (if deferredReplace then [LoaderReplace (fst r) (snd r)] else [])
          ++ [LoaderShown]
      | Rejected _ => []
      end
  | LoaderReplace _ _ => []
  | LoaderShown => [ResultsRender]
  | ResultsRender =>
      match renderTemplate "core_grades/searchwidget/searchresults"
                           (JObj [("searchresults", data)]) with
      | Fulfilled r =>
          if deferredReplace then [ResultsReplace (fst r) (snd r)] else [ResultsShown]
      | Rejected _ => []
      end
  | ResultsReplace _ _ => [ResultsShown]
  | ResultsShown => [ResultsDone]
  | ResultsDone => []
  end.

End Widget.

(** Where the chain of one reaction can be when every replacement is done
    during the call: at one of its [await]s, or at its end.  [w] is the world
    in which the body arrives, [c] and [w1] what [injectBody] gives there. *)
Definition chain_at (parseHTML : JsVal -> Markup)
           (renderTemplate : string -> JsVal -> Settled (Html * Js))
           (r : Reaction) (bodyContent : JsVal) (w : World)
           (c : option Element) (w1 : World) (cfg : Config) : Prop :=
  let waits := task false c (reactionData r) (reactionSearchFunc r) in
  let rendering := record (TemplateRender loadingTemplate (JObj [])) w1 in
  let shown := fun lhtml ljs => exec (Templates_replaceNodeContents c lhtml ljs) rendering in
  let searching := fun lhtml ljs =>
    record (TemplateRender searchresultsTemplate (resultsContext (reactionData r)))
           (shown lhtml ljs) in
  let listed := fun lhtml ljs rhtml rjs =>
    exec (Templates_replaceNodeContents c rhtml rjs) (searching lhtml ljs) in
  cfg = (rendering, [waits LoaderRender]) \/
  (exists lhtml ljs,
      renderTemplate loadingTemplate (JObj []) = Fulfilled (lhtml, ljs) /\
      (cfg = (shown lhtml ljs, [waits LoaderShown]) \/
       cfg = (searching lhtml ljs, [waits ResultsRender]) \/
       exists rhtml rjs,
         renderTemplate searchresultsTemplate (resultsContext (reactionData r))
         = Fulfilled (rhtml, rjs) /\
         (cfg = (listed lhtml ljs rhtml rjs, [waits ResultsShown]) \/
          cfg = (listed lhtml ljs rhtml rjs, [waits ResultsDone])))) \/
  cfg = (exec (react parseHTML renderTemplate r (Fulfilled bodyContent)) w, []).

End Interleaved.

(** ** Sessions of user events *)

(** The closure that [registerListenerEvents] builds in the world [w]: the
    results node as [querySelector] finds it, the search input, the clear
    button and the two arguments. *)
Definition registeredClosure (w : World) (data : JsVal) (searchFunc : SearchFactory)
  : Closure :=
  {| cSearchResultsContainer :=
       if present Selectors.regions.searchResults (container w)
       then Some Selectors.regions.searchResults else None;
     cSearchInput := Selectors.actions.search;
     cClearSearchButton :=
       if present Selectors.actions.clearSearch (container w)
       then Some Selectors.actions.clearSearch else None;
     cData := data;
     cSearchFunc := searchFunc |}.

(** [n] calls in a row, each awaited. *)
Fixpoint times (n : nat) (m : M unit) : M unit :=
  match n with
  | 0 => ret tt
  | S n' => m ;;; times n' m
  end.

(** What the user can do to a widget: type, click the clear button, wait. *)
Inductive UserEvent : Type :=
| Typing (now : nat) (v : string)
| ClearClick
| Idle (now : nat).

Definition user_event (renderTemplate : string -> JsVal -> Settled (Html * Js))
           (ev : UserEvent) : M unit :=
  match ev with
  | Typing now v => input_event renderTemplate now v
  | ClearClick => click_event renderTemplate
  | Idle now => advance renderTemplate now
  end.

Fixpoint session (renderTemplate : string -> JsVal -> Settled (Html * Js))
         (evs : list UserEvent) : M unit :=
  match evs with
  | [] => ret tt
  | ev :: rest => user_event renderTemplate ev ;;; session renderTemplate rest
  end.

(** What no user event changes: the unsearchable region, which of the four
    parts exist, the listeners (up to the state of their timers), the promise
    store and what the notification surface has received. *)
Definition kept (w w' : World) : Prop :=
  unsearchableContent (container w') = unsearchableContent (container w) /\
  is_some (searchResults (container w')) = is_some (searchResults (container w)) /\
  option_map (fun i => map callee (inputListeners i)) (search (container w'))
  = option_map (fun i => map callee (inputListeners i)) (search (container w)) /\
  option_map clickListeners (clearSearch (container w'))
  = option_map clickListeners (clearSearch (container w)) /\
  promises w' = promises w /\
  notifications w' = notifications w.

(** The results node of a closure is what [querySelector] gave for the
    results selector: the results region or [null]. *)
Definition from_registration (cl : Closure) : Prop :=
  cSearchResultsContainer cl = None \/
  cSearchResultsContainer cl = Some Selectors.regions.searchResults.

(** Every listener on the widget was built by [registerListenerEvents]. *)
Definition listeners_registered (w : World) : Prop :=
  Forall from_registration
         match search (container w) with
         | Some i => map callee (inputListeners i)
         | None => []
         end /\
  Forall from_registration
         match clearSearch (container w) with
         | Some b => clickListeners b
         | None => []
         end.

(** Code that, on such a widget, returns normally and keeps all of that. *)
Definition keeps (m : M unit) : Prop :=
  forall w, listeners_registered w ->
            exists w', m w = (Fulfilled tt, w') /\ kept w w'.

(** Input events that each come once the call armed by the one before is
    due: the first no earlier than [due], every later one at least 300ms after
    its predecessor. *)
Fixpoint spaced (due : nat) (events : list (nat * string)) : Prop :=
  match events with
  | [] => True
  | (t, _) :: rest => due <= t /\ spaced (t + 300) rest
  end.

(** When the call that is pending after such events is due. *)
Fixpoint last_due (due : nat) (events : list (nat * string)) : nat :=
  match events with
  | [] => due
  | (t, _) :: rest => last_due (t + 300) rest
  end.

(** A second page: bodies that lack the clear button or the results region,
    and a results template that cannot be rendered. *)
Module DemoEdge.

Definition noClearBody : Markup :=
  {| unsearchableMarkup := Some "<h5>Other</h5>";
     resultsMarkup := Some "";
     searchMarkup := Some "";
     clearMarkup := None |}.

Definition parseHTML (bodyContent : JsVal) : Markup :=
  match bodyContent with
  | JStr s =>
      if String.eqb s "<widget-noclear/>" then noClearBody
      else Demo.parseHTML bodyContent
  | _ => Demo.parseHTML bodyContent
  end.

(** The widget built from the body without a clear button. *)
Definition noClear : World :=
  exec (init parseHTML Demo.renderTemplate 0 Demo.names Demo.searchFunc None ;;;
        settle parseHTML Demo.renderTemplate 0 (Fulfilled (JStr "<widget-noclear/>")))
       Demo.waiting.

(** The body with nothing attached yet. *)
Definition mounted : World :=
  exec (set_container_innerHTML Demo.fullBody) Demo.page.

(** The widget built with content for the unsearchable region. *)
Definition withHelp : World :=
  exec (init Demo.parseHTML Demo.renderTemplate 0 Demo.names Demo.searchFunc
             (Some "<p>Help</p>") ;;;
        settle Demo.parseHTML Demo.renderTemplate 0 (Fulfilled (JStr "<widget/>")))
       Demo.waiting.

Definition searchError : JsVal := JStr "results template not found".

(** A template service whose results template cannot be rendered. *)
Definition brokenResults (templateName : string) (context : JsVal) : Settled (Html * Js) :=
  if String.eqb templateName searchresultsTemplate then Rejected searchError
  else Demo.renderTemplate templateName context.

(** A session: type, pause, clear, type again and pause. *)
Definition events : list UserEvent :=
  [Typing 1000 "a"; Idle 1300; ClearClick; Typing 2000 "bo"; Idle 2400].

(** The user types "a" and clicks the clear button 100ms later. *)
Definition clickedWhilePending : World :=
  exec (unawaited (clearHandler Demo.renderTemplate Demo.closure))
       (typed Demo.closure (Some 1300) "a" Demo.ready).

(** Three keystrokes, each after a pause of at least 300ms. *)
Definition slowTyping : list (nat * string) :=
  [(1000, "a"); (1300, "al"); (1700, "ali")].

End DemoEdge.

(** ** Overlapping calls of [init] *)

(** The stages of the callback itself; the other one belongs to a
    replacement that the callback has left behind. *)
Definition mainStage (st : Interleaved.Stage) : bool :=
  match st with
  | Interleaved.LoaderReplace _ _ => false
  | _ => true
  end.

Definition overlapping (data : JsVal) (searchFunc : SearchFactory) (deferredReplace : bool)
           (v0 : string) (c0 : list string) (total : nat) (cfg : Interleaved.Config) : Prop :=
  let cl := {| cSearchResultsContainer := Some searchResultsRegion;
               cSearchInput := searchControl;
               cClearSearchButton := Some clearSearchControl;
               cData := data;
               cSearchFunc := searchFunc |} in
  exists (sts : list Interleaved.Stage) (n : nat),
    snd cfg = map (Interleaved.task deferredReplace (Some searchResultsRegion) data searchFunc)
                  sts /\
    n + length (filter mainStage sts) = total /\
    search (container (fst cfg))
    = Some {| value := v0; inputListeners := repeat (debounce cl 300) n |} /\
    clearSearch (container (fst cfg))
    = Some {| classList := c0; clickListeners := repeat cl n |} /\
    searchResults (container (fst cfg)) <> None.

(** ** Interleaved runs on the demo page *)

Module DemoInterleaved.

(** A body with the search input and the clear button, and no results
    region. *)
Definition noResultsBody : Markup :=
  {| unsearchableMarkup := Some "<h5>Other</h5>";
     resultsMarkup := None;
     searchMarkup := Some "";
     clearMarkup := Some ["btn"; "d-none"] |}.

Definition parseHTML (bodyContent : JsVal) : Markup :=
  match bodyContent with
  | JStr s =>
      if String.eqb s "<widget-noresults/>" then noResultsBody
      else Demo.parseHTML bodyContent
  | _ => Demo.parseHTML bodyContent
  end.

(** [init] has been called on the demo page and the full body has just
    arrived. *)
Definition arrived (deferredReplace : bool) : Interleaved.Config :=
  Interleaved.settle Demo.parseHTML deferredReplace 0 (Fulfilled (JStr "<widget/>"))
    (Interleaved.init Demo.parseHTML deferredReplace 0 Demo.names Demo.searchFunc None
                      (Demo.waiting, [])).

(** The same with the body that has no results region. *)
Definition arrivedNoResults : Interleaved.Config :=
  Interleaved.settle parseHTML false 0 (Fulfilled (JStr "<widget-noresults/>"))
    (Interleaved.init parseHTML false 0 Demo.names Demo.searchFunc None
                      (Demo.waiting, [])).

(** [init] has been called twice before the full body arrives. *)
Definition arrivedTwice (deferredReplace : bool) : Interleaved.Config :=
  Interleaved.settle Demo.parseHTML deferredReplace 0 (Fulfilled (JStr "<widget/>"))
    (Interleaved.init Demo.parseHTML deferredReplace 0 Demo.names Demo.searchFunc None
       (Interleaved.init Demo.parseHTML deferredReplace 0 Demo.names Demo.searchFunc None
                         (Demo.waiting, []))).

(** The callback goes on whenever it can; a replacement that was only
    requested is done last. *)
Definition replacementsLast : list nat := [0; 1; 1; 1; 1; 1; 0].

End DemoInterleaved.

(** ** Symbolic execution of the chain *)

Ltac unfold_widget :=
  unfold react, onBodyContent, inputHandler, clearHandler in *;
  unfold showLoader, renderSearchResults, registerListenerEvents in *;
  unfold Templates_renderForPromise, Templates_replaceNodeContents,
    set_container_innerHTML, append_innerHTML, querySelector, focus,
    addEventListener_input, addEventListener_click, classList_add,
    classList_remove, get_value, set_value, stopPropagation,
    Notification_exception, truthy, debounce,
    catch, await, unawaited, bind, ret, throw, exec, result,
    loadingTemplate, searchresultsTemplate, resultsContext in *.

(** The chain after its first [await], run in one go. *)
Ltac chain_tail :=
  unfold exec, catch, bind, await, unawaited, showLoader, renderSearchResults,
    Templates_renderForPromise, Templates_replaceNodeContents, Notification_exception,
    loadingTemplate, searchresultsTemplate, resultsContext in *;
  simpl;
  repeat match goal with
         | H : ?f ?n ?x = _ |- context [?f ?n ?x] => rewrite H; simpl
         end.

(** * Properties *)

Example demo_search :
  debounceCallee "a" Demo.names (Demo.searchFunc tt) = JArr [JStr "Alice"; JStr "Charlie"].
Proof. reflexivity. Qed.

Example demo_ready_results :
  searchResults (container Demo.ready) = Some "<li>Alice</li><li>Bob</li><li>Charlie</li>".
Proof. reflexivity. Qed.

Example demo_ready_listeners :
  option_map (fun i => length (inputListeners i)) (search (container Demo.ready)) = Some 1
  /\ option_map (fun b => length (clickListeners b)) (clearSearch (container Demo.ready)) = Some 1
  /\ activeElement Demo.ready = Some searchControl
  /\ notifications Demo.ready = [].
Proof. repeat split. Qed.

(** ** The filtering policy *)

(** C1: with an empty query the filtering step returns the dataset itself,
    whatever it is; with a non-empty query it returns exactly what the
    caller's search function returns for the dataset and the query. *)
Theorem debounceCallee_policy :
  forall (D : JsVal) (q : string) (searchFunction : SearchFunction),
    (String.length q = 0 -> debounceCallee q D searchFunction = D) /\
    (String.length q <> 0 -> debounceCallee q D searchFunction = searchFunction D q).
Proof.
  intros D q searchFunction. unfold debounceCallee.
  destruct (String.length q) as [|n] eqn:Hlen; simpl; split; intro H;
    congruence.
Qed.

Lemma debounceCallee_policy_witness :
  debounceCallee "" (JArr []) (Demo.searchFunc tt) = JArr [] /\
  debounceCallee "a" Demo.names (Demo.searchFunc tt) = Demo.searchFunc tt Demo.names "a".
Proof.
  split.
  - apply (proj1 (debounceCallee_policy (JArr []) "" (Demo.searchFunc tt))).
    reflexivity.
  - apply (proj2 (debounceCallee_policy Demo.names "a" (Demo.searchFunc tt))).
    simpl. discriminate.
Defined.

(** ** Listener registration without a search input *)

(** C4: when the container has no search input, [registerListenerEvents]
    returns normally and leaves the whole world as it was: no DOM mutation,
    no focus change and no listener. *)
Theorem registerListenerEvents_absent_input :
  forall (w : World) (data : JsVal) (searchFunc : SearchFactory),
    search (container w) = None ->
    registerListenerEvents data searchFunc w = (Fulfilled tt, w).
Proof.
  intros w data searchFunc Hnone.
  unfold registerListenerEvents, bind, querySelector; simpl.
  rewrite Hnone; simpl. reflexivity.
Qed.

Lemma registerListenerEvents_absent_input_witness :
  registerListenerEvents Demo.names Demo.searchFunc Demo.page = (Fulfilled tt, Demo.page).
Proof.
  apply (registerListenerEvents_absent_input Demo.page Demo.names Demo.searchFunc).
  reflexivity.
Defined.

(** ** Rendering the results *)

Lemma map_region_const_twice :
  forall el html wd,
    map_region el (fun _ => html) (map_region el (fun _ => html) wd)
    = map_region el (fun _ => html) wd.
Proof.
  intros el html wd. destruct el; simpl; try reflexivity.
  - destruct (unsearchableContent wd); reflexivity.
  - destruct (searchResults wd); reflexivity.
Qed.

(** C8: [renderSearchResults] is idempotent on the container: a second call
    with the same arguments, made after the first (awaited in sequence or
    simply called again), leaves the container exactly as the first call
    left it. *)
Theorem renderSearchResults_idempotent :
  forall (renderTemplate : string -> JsVal -> Settled (Html * Js))
         (node : option Element) (items : JsVal) (w : World),
    let once := renderSearchResults renderTemplate node items in
    container (exec once (exec once w)) = container (exec once w) /\
    container (exec (await once ;;; await once) w) = container (exec once w).
Proof.
  intros renderTemplate node items w once. subst once.
  unfold exec, renderSearchResults, await, bind,
    Templates_renderForPromise, Templates_replaceNodeContents.
  destruct (renderTemplate "core_grades/searchwidget/searchresults"
              (JObj [("searchresults", items)])) as [[html js]|e] eqn:Hr; simpl.
  - destruct node as [el|]; simpl.
    + rewrite map_region_const_twice. split; reflexivity.
    + split; reflexivity.
  - split; reflexivity.
Qed.

(** ** The deferred body promise *)

(** C9, as the code has it: [promisesAndResolvers] needs nothing and always
    returns; the promise it returns is pending.  Calling the returned resolver
    with a value [v] that is not a promise or thenable fulfils that promise
    with exactly [v].  The resolver is the promise's own resolve function, so
    a promise or thenable is adopted instead: the body promise settles the way
    that thenable does (with the value it passes on, or rejected with its
    reason), and stays pending, locked, while the thenable calls nothing. *)
Theorem promisesAndResolvers_resolution :
  forall (parseHTML : JsVal -> Markup)
         (renderTemplate : string -> JsVal -> Settled (Html * Js)) (w : World),
  exists (r : BodyPromise) (w1 : World),
    promisesAndResolvers w = (Fulfilled r, w1) /\
    promise_state (bodyPromise r) w1 = Some Pending /\
    forall v : JsVal,
      let w2 := exec (call_resolver parseHTML renderTemplate (bodyPromiseResolver r) v) w1 in
      (is_thenable v = false ->
       promise_state (bodyPromise r) w2 = Some (Settle (Fulfilled v))) /\
      promise_state (bodyPromise r) w2
      = Some match resolution v with
             | Some s => Settle s
             | None => Locked
             end.
Proof.
  intros parseHTML renderTemplate w.
  eexists. eexists. split; [reflexivity|].
  unfold promise_state; simpl.
  assert (Hnth : forall (c : PromiseCell) ps, nth_error (ps ++ [c]) (length ps) = Some c).
  { intros c ps. rewrite nth_error_app2 by lia. rewrite Nat.sub_diag. reflexivity. }
  assert (Hupd : forall (f : PromiseCell -> PromiseCell) (c : PromiseCell) ps,
             nth_error (update_nth (length ps) f (ps ++ [c])) (length ps) = Some (f c)).
  { intros f c ps. induction ps as [|x ps IH]; simpl; [reflexivity | exact IH]. }
  split.
  - rewrite Hnth. reflexivity.
  - intro v.
    assert (Hstate : option_map pstate
                       (nth_error
                          (promises
                             (exec (call_resolver parseHTML renderTemplate
                                      (ResolveFunction (length (promises w))) v)
                                   (with_promises
                                      (fun ps => ps ++ [{| pstate := Pending;
                                                           reactions := [] |}]) w)))
                          (length (promises w)))
                     = Some match resolution v with
                            | Some s => Settle s
                            | None => Locked
                            end).
    { unfold exec, call_resolver. destruct (resolution v) as [s|].
      - unfold settle; simpl. rewrite Hnth; simpl. rewrite Hupd. reflexivity.
      - unfold lock; simpl. rewrite Hupd. reflexivity. }
    split; [|exact Hstate].
    intro Hplain. etransitivity; [exact Hstate|].
    destruct v; simpl in *; try discriminate; reflexivity.
Qed.

Lemma promisesAndResolvers_resolution_witness :
  promise_state 0 (exec (call_resolver Demo.parseHTML Demo.renderTemplate
                           (ResolveFunction 0) (JStr "<div>x</div>")) Demo.waiting)
  = Some (Settle (Fulfilled (JStr "<div>x</div>"))).
Proof.
  destruct (promisesAndResolvers_resolution Demo.parseHTML Demo.renderTemplate Demo.page)
    as [r [w1 [Hcall [_ Hresolve]]]].
  injection Hcall as Hr Hw1. subst r w1.
  apply (proj1 (Hresolve (JStr "<div>x</div>"))). reflexivity.
Defined.

(** C9 as stated fails for a value that is a promise or thenable: handed a
    promise that rejects, the resolver rejects the body promise (and with
    [init] attached the reason goes to the notification surface); handed a
    promise fulfilled with [x], it fulfils the body promise with [x], not with
    the promise it was given. *)
Lemma resolver_adopts_thenable :
  promise_state 0 (exec (call_resolver Demo.parseHTML Demo.renderTemplate
                           (ResolveFunction 0) (JThenRejects (JStr "network")))
                        Demo.waiting)
  = Some (Settle (Rejected (JStr "network"))) /\
  promise_state 0 (exec (call_resolver Demo.parseHTML Demo.renderTemplate
                           (ResolveFunction 0) (JThenFulfils (JStr "<div>x</div>")))
                        Demo.waiting)
  = Some (Settle (Fulfilled (JStr "<div>x</div>"))) /\
  Settle (Fulfilled (JStr "<div>x</div>"))
  <> Settle (Fulfilled (JThenFulfils (JStr "<div>x</div>"))) /\
  notifications
    (exec (init Demo.parseHTML Demo.renderTemplate 0 Demo.names Demo.searchFunc None ;;;
           call_resolver Demo.parseHTML Demo.renderTemplate
                         (ResolveFunction 0) (JThenRejects (JStr "network")))
          Demo.waiting)
  = [JStr "network"].
Proof.
  split; [reflexivity|]. split; [reflexivity|]. split; [discriminate | reflexivity].
Qed.

(** ** Running [init] *)

Section InitRuns.

Variable parseHTML : JsVal -> Markup.
Variable renderTemplate : string -> JsVal -> Settled (Html * Js).

Lemma nth_error_update_nth :
  forall (A : Type) (f : A -> A) (l : list A) (n : nat) (x : A),
    nth_error l n = Some x ->
    nth_error (update_nth n f l) n = Some (f x).
Proof.
  intros A f l. induction l as [|y l IH]; intros [|n] x H; simpl in *;
    try discriminate.
  - congruence.
  - apply IH. exact H.
Qed.

Lemma catch_notify_fulfils :
  forall (m : M unit) w, fst (catch m Notification_exception w) = Fulfilled tt.
Proof.
  intros m w. unfold catch. destruct (m w) as [[[]|e] w1]; reflexivity.
Qed.

Lemma react_fulfils :
  forall r s w, result (react parseHTML renderTemplate r s) w = Fulfilled tt.
Proof.
  intros r s w. unfold result, react. apply catch_notify_fulfils.
Qed.

Lemma unawaited_react :
  forall r s w,
    unawaited (react parseHTML renderTemplate r s) w
    = (Fulfilled tt, exec (react parseHTML renderTemplate r s) w).
Proof.
  intros r s w. unfold unawaited, exec.
  pose proof (react_fulfils r s w) as H. unfold result in H.
  destruct (react parseHTML renderTemplate r s w) as [[[]|e] w1]; simpl in *;
    [reflexivity | discriminate].
Qed.

(** [init] never rejects: the chain it builds ends in a [catch] and is not
    returned. *)
Lemma init_fulfils :
  forall p data searchFunc unsearchableContent w,
    result (init parseHTML renderTemplate p data searchFunc unsearchableContent) w
    = Fulfilled tt.
Proof.
  intros p data searchFunc unsearchableContent w.
  unfold result, init, unawaited.
  destruct (then_catch _ _ _ _ w) as [[a|e] w1]; reflexivity.
Qed.

(** Every run of [init] is one run of the chain, on the page as it was. *)
Lemma initialised_react :
  forall w p data searchFunc unsearchableContent s w',
    initialised parseHTML renderTemplate w p data searchFunc unsearchableContent s w' ->
    exists w0,
      same_page w0 w /\
      w' = exec (react parseHTML renderTemplate
                   {| reactionData := data;
                      reactionSearchFunc := searchFunc;
                      reactionUnsearchable := unsearchableContent |} s) w0.
Proof.
  intros w p data searchFunc unsearchableContent s w' [[Hp Hw']|[Hp Hw']].
  - subst w'. eexists. split; [|unfold exec, bind, init, unawaited, then_catch].
    2:{ rewrite Hp; simpl. unfold settle; simpl.
        rewrite (nth_error_update_nth _ _ _ _ _ Hp); simpl.
        unfold bind. rewrite unawaited_react. simpl. reflexivity. }
    repeat split.
  - subst w'. exists w. split; [repeat split|].
    unfold promise_state in Hp.
    destruct (nth_error (promises w) p) as [c|] eqn:Hc; [|discriminate].
    simpl in Hp. injection Hp as Hs.
    assert (Hthen : forall r, then_catch parseHTML renderTemplate p r w
                              = react parseHTML renderTemplate r s w).
    { intro r. unfold then_catch. rewrite Hc, Hs. reflexivity. }
    unfold exec, init, unawaited. rewrite Hthen.
    match goal with
    | |- _ = snd (react _ _ ?r _ _) => pose proof (react_fulfils r s w) as Hf
    end.
    unfold result in Hf.
    destruct (react parseHTML renderTemplate _ s w) as [[[]|e] w1]; simpl in *;
      [reflexivity | discriminate].
Qed.

Lemma react_rejected :
  forall r e w,
    react parseHTML renderTemplate r (Rejected e) w = (Fulfilled tt, notify e w).
Proof. reflexivity. Qed.

End InitRuns.

(** ** A body promise that rejects *)

(** C2: when the body promise rejects with [e], [Notification.exception]
    receives exactly [e] (once), and nothing else happens: the container,
    the focus and the record of template renders and replacements are what
    they were, so no body is injected, no placeholder or results are
    rendered and no listener is added. *)
Theorem init_body_rejected :
  forall (parseHTML : JsVal -> Markup)
         (renderTemplate : string -> JsVal -> Settled (Html * Js))
         (w : World) (p : PromiseId) (data : JsVal) (searchFunc : SearchFactory)
         (unsearchableContent : option string) (e : JsVal) (w' : World),
    initialised parseHTML renderTemplate w p data searchFunc unsearchableContent
                (Rejected e) w' ->
    notifications w' = notifications w ++ [e] /\
    container w' = container w /\
    activeElement w' = activeElement w /\
    trace w' = trace w.
Proof.
  intros parseHTML renderTemplate w p data searchFunc unsearchableContent e w' Hrun.
  destruct (initialised_react _ _ _ _ _ _ _ _ _ Hrun)
    as [w0 [[Hc [Ha [Hn [Ht _]]]] Hw']].
  subst w'. unfold exec. rewrite react_rejected. simpl.
  rewrite Hn, Hc, Ha, Ht. repeat split.
Qed.

Lemma init_body_rejected_witness :
  notifications Demo.rejected = notifications Demo.waiting ++ [JStr "network"] /\
  container Demo.rejected = container Demo.waiting /\
  activeElement Demo.rejected = activeElement Demo.waiting /\
  trace Demo.rejected = trace Demo.waiting.
Proof.
  apply (init_body_rejected Demo.parseHTML Demo.renderTemplate Demo.waiting 0
           Demo.names Demo.searchFunc None (JStr "network") Demo.rejected).
  left. split; reflexivity.
Defined.

Lemma app_one_neq : forall (A : Type) (l : list A) (x : A), l ++ [x] <> l.
Proof.
  intros A l x H. apply (f_equal (@length A)) in H.
  rewrite length_app in H. simpl in H. lia.
Qed.

Section Chain.

Variable parseHTML : JsVal -> Markup.
Variable renderTemplate : string -> JsVal -> Settled (Html * Js).

(** With content for the unsearchable region and no such region in the
    body, the chain stops right after the body is injected. *)
Lemma react_missing_region :
  forall data searchFunc content bodyContent w0,
    truthy (Some content) = true ->
    unsearchableMarkup (parseHTML bodyContent) = None ->
    react parseHTML renderTemplate
      {| reactionData := data;
         reactionSearchFunc := searchFunc;
         reactionUnsearchable := Some content |}
      (Fulfilled bodyContent) w0
    = (Fulfilled tt,
       notify (TypeError "Cannot read properties of null (reading 'innerHTML')")
              (with_container (fun _ => mount (parseHTML bodyContent)) w0)).
Proof.
  intros data searchFunc content bodyContent w0 Ht Hu.
  unfold_widget. simpl. rewrite Ht. simpl. rewrite Hu. simpl. reflexivity.
Qed.

(** A template that fails inside the chain ends in the [catch] of the
    chain. *)
Lemma react_template_failure :
  forall data searchFunc unsearchableContent bodyContent e w0,
    (truthy unsearchableContent = true ->
     unsearchableMarkup (parseHTML bodyContent) <> None) ->
    renderTemplate loadingTemplate (JObj []) = Rejected e \/
    ((exists loading, renderTemplate loadingTemplate (JObj []) = Fulfilled loading) /\
     renderTemplate searchresultsTemplate (resultsContext data) = Rejected e) ->
    notifications
      (exec (react parseHTML renderTemplate
               {| reactionData := data;
                  reactionSearchFunc := searchFunc;
                  reactionUnsearchable := unsearchableContent |}
               (Fulfilled bodyContent)) w0)
    = notifications w0 ++ [e].
Proof.
  intros data searchFunc unsearchableContent bodyContent e w0 Hu Hfail.
  unfold_widget. simpl.
  destruct (parseHTML bodyContent) as [um rm sm cm]; simpl in *.
  assert (Hstep : (if match unsearchableContent with
                      | Some s => (0 <? String.length s)%nat
                      | None => false
                      end then is_some um else true) = true).
  { destruct unsearchableContent as [[|c s]|]; simpl in *; try reflexivity.
    destruct um; [reflexivity | exfalso; apply Hu; reflexivity]. }
  destruct Hfail as [Hl | [[[lhtml ljs] Hl] Hr]]; rewrite Hl; simpl;
    rewrite ?Hr; simpl;
    destruct unsearchableContent as [[|c s]|]; simpl in *;
    destruct um as [u0|]; simpl in *; try discriminate;
    destruct rm as [r0|]; simpl; rewrite ?Hr; reflexivity.
Qed.

End Chain.

(** ** Content for an unsearchable region that the body does not have *)

(** C10, as the code has it: the guard of [init] tests the unsearchable
    content for truthiness, so the claim holds for content that is neither
    [null] nor the empty string.  With such content and a body without an
    unsearchable-content region, setup stops after the body has been
    injected: the [TypeError] goes to the notification surface, the container
    holds the body and nothing else (no placeholder, no results, no
    listener), no template is rendered and the focus is not moved. *)
Theorem init_missing_unsearchable_region :
  forall (parseHTML : JsVal -> Markup)
         (renderTemplate : string -> JsVal -> Settled (Html * Js))
         (w : World) (p : PromiseId) (data : JsVal) (searchFunc : SearchFactory)
         (content : string) (bodyContent : JsVal) (w' : World),
    initialised parseHTML renderTemplate w p data searchFunc (Some content)
                (Fulfilled bodyContent) w' ->
    content <> "" ->
    unsearchableMarkup (parseHTML bodyContent) = None ->
    notifications w'
    = notifications w ++ [TypeError "Cannot read properties of null (reading 'innerHTML')"] /\
    container w' = mount (parseHTML bodyContent) /\
    trace w' = trace w /\
    activeElement w' = activeElement w.
Proof.
  intros parseHTML renderTemplate w p data searchFunc content bodyContent w'
         Hrun Hcontent Hregion.
  destruct (initialised_react _ _ _ _ _ _ _ _ _ Hrun)
    as [w0 [[Hc [Ha [Hn [Ht Hu]]]] Hw']].
  assert (Htruthy : truthy (Some content) = true).
  { destruct content; [congruence | reflexivity]. }
  subst w'. unfold exec.
  rewrite (react_missing_region parseHTML renderTemplate _ _ _ _ _ Htruthy Hregion).
  simpl. rewrite Hn, Ha, Ht. repeat split.
Qed.

Lemma init_missing_unsearchable_region_witness :
  notifications Demo.missingRegion
  = notifications Demo.waiting
    ++ [TypeError "Cannot read properties of null (reading 'innerHTML')"] /\
  container Demo.missingRegion = mount (Demo.parseHTML (JStr "<widget-plain/>")) /\
  trace Demo.missingRegion = trace Demo.waiting /\
  activeElement Demo.missingRegion = activeElement Demo.waiting.
Proof.
  apply (init_missing_unsearchable_region Demo.parseHTML Demo.renderTemplate
           Demo.waiting 0 Demo.names Demo.searchFunc "<p>Help</p>"
           (JStr "<widget-plain/>") Demo.missingRegion).
  - left. split; reflexivity.
  - discriminate.
  - reflexivity.
Defined.

(** C10 as stated fails for the empty string, which is not [null]: the guard
    skips the unsearchable region, and setup runs to its end on a body that
    has no such region. *)
Lemma init_empty_unsearchable_content_completes :
  unsearchableMarkup (Demo.parseHTML (JStr "<widget-plain/>")) = None /\
  notifications Demo.emptyContent = [] /\
  searchResults (container Demo.emptyContent)
  = Some "<li>Alice</li><li>Bob</li><li>Charlie</li>" /\
  trace Demo.emptyContent
  = [TemplateRender loadingTemplate (JObj []);
     NodeReplaced (Some searchResultsRegion) "<loading/>" "";
     TemplateRender searchresultsTemplate (resultsContext Demo.names);
     NodeReplaced (Some searchResultsRegion)
                  "<li>Alice</li><li>Bob</li><li>Charlie</li>" ""] /\
  option_map inputListeners (search (container Demo.emptyContent))
  = Some [debounce Demo.closure 300] /\
  option_map clickListeners (clearSearch (container Demo.emptyContent))
  = Some [Demo.closure].
Proof. repeat split. Qed.

(** ** A template that cannot be rendered *)

(** C7, as the code has it: neither [showLoader] nor [renderSearchResults]
    catches a failure of its template, and the promise each returns is
    rejected with it.  [init] is different: the promise it returns is always
    fulfilled, and a template failure inside its chain is caught by the
    [catch] of the chain, which hands it to [Notification.exception]. *)
Theorem template_failure_propagation :
  forall (parseHTML : JsVal -> Markup)
         (renderTemplate : string -> JsVal -> Settled (Html * Js)),
    (forall node e w,
        renderTemplate loadingTemplate (JObj []) = Rejected e ->
        result (showLoader renderTemplate node) w = Rejected e) /\
    (forall node items e w,
        renderTemplate searchresultsTemplate (resultsContext items) = Rejected e ->
        result (renderSearchResults renderTemplate node items) w = Rejected e) /\
    (forall p data searchFunc unsearchableContent w,
        result (init parseHTML renderTemplate p data searchFunc unsearchableContent) w
        = Fulfilled tt) /\
    (forall w p data searchFunc unsearchableContent bodyContent e w',
        initialised parseHTML renderTemplate w p data searchFunc unsearchableContent
                    (Fulfilled bodyContent) w' ->
        (truthy unsearchableContent = true ->
         unsearchableMarkup (parseHTML bodyContent) <> None) ->
        renderTemplate loadingTemplate (JObj []) = Rejected e \/
        ((exists loading, renderTemplate loadingTemplate (JObj []) = Fulfilled loading) /\
         renderTemplate searchresultsTemplate (resultsContext data) = Rejected e) ->
        notifications w' = notifications w ++ [e]).
Proof.
  intros parseHTML renderTemplate. repeat split.
  - intros node e w H. unfold_widget. rewrite H. reflexivity.
  - intros node items e w H. unfold_widget. rewrite H. reflexivity.
  - intros. apply init_fulfils.
  - intros w p data searchFunc unsearchableContent bodyContent e w' Hrun Hu Hfail.
    destruct (initialised_react _ _ _ _ _ _ _ _ _ Hrun)
      as [w0 [[Hc [Ha [Hn [Ht Hun]]]] Hw']].
    subst w'. rewrite <- Hn.
    apply react_template_failure; assumption.
Qed.

Lemma template_failure_propagation_witness :
  result (showLoader Demo.brokenTemplate (Some searchResultsRegion)) Demo.page
  = Rejected Demo.renderError /\
  notifications (exec (Demo.brokenInit ;;; Demo.brokenBody) Demo.waiting)
  = notifications Demo.waiting ++ [Demo.renderError].
Proof.
  pose proof (template_failure_propagation Demo.parseHTML Demo.brokenTemplate)
    as [Hloader [_ [_ Hinit]]].
  split.
  - apply Hloader. reflexivity.
  - apply (Hinit Demo.waiting 0 Demo.names Demo.searchFunc None (JStr "<widget/>")).
    + left. split; reflexivity.
    + simpl. discriminate.
    + left. reflexivity.
Defined.

(** C7 as stated fails for [init]: with a loading template that cannot be
    rendered, the promise of [init] is fulfilled all the same, whether the
    body arrives after the call or before it, and the failure is seen by the
    notification surface only. *)
Lemma init_does_not_reject_on_template_failure :
  Demo.brokenTemplate loadingTemplate (JObj []) = Rejected Demo.renderError /\
  result Demo.brokenInit Demo.waiting = Fulfilled tt /\
  result (Demo.brokenInit ;;; Demo.brokenBody) Demo.waiting = Fulfilled tt /\
  notifications (exec (Demo.brokenInit ;;; Demo.brokenBody) Demo.waiting)
  = [Demo.renderError] /\
  unhandled (exec (Demo.brokenInit ;;; Demo.brokenBody) Demo.waiting) = [] /\
  result Demo.brokenInit (exec Demo.brokenBody Demo.waiting) = Fulfilled tt /\
  notifications (exec Demo.brokenInit (exec Demo.brokenBody Demo.waiting))
  = [Demo.renderError].
Proof. repeat split. Qed.

(** ** Clearing the search *)

Lemma token_add_In : forall c cs, In c (token_add c cs).
Proof.
  intros c cs. unfold token_add.
  destruct (existsb (String.eqb c) cs) eqn:Hex.
  - apply existsb_exists in Hex. destruct Hex as [x [Hin Heq]].
    apply String.eqb_eq in Heq. subst x. exact Hin.
  - apply in_or_app. right. left. reflexivity.
Qed.

(** C5: a click on the clear button has the same outcome and leaves the same
    container as the input handler run on an emptied search input.  When the
    handlers hold the nodes that [registerListenerEvents] found and the
    results template renders, that container shows the results template
    applied to the whole dataset, and the clear button carries [d-none]. *)
Theorem clear_click_equals_empty_input :
  forall (renderTemplate : string -> JsVal -> Settled (Html * Js))
         (cl : Closure) (w : World),
    let emptied := exec (set_value (cSearchInput cl) "") w in
    let cleared := exec (clearHandler renderTemplate cl) w in
    result (clearHandler renderTemplate cl) w
    = result (inputHandler renderTemplate cl) emptied /\
    container cleared = container (exec (inputHandler renderTemplate cl) emptied) /\
    (forall (b : HTMLButtonElement) (html : Html) (js : Js),
        cClearSearchButton cl = Some clearSearchControl ->
        cSearchResultsContainer cl = Some searchResultsRegion ->
        searchResults (container w) <> None ->
        clearSearch (container w) = Some b ->
        renderTemplate searchresultsTemplate (resultsContext (cData cl))
        = Fulfilled (html, js) ->
        result (clearHandler renderTemplate cl) w = Fulfilled tt /\
        searchResults (container cleared) = Some html /\
        exists b', clearSearch (container cleared) = Some b' /\
                   In "d-none" (classList b')).
Proof.
  intros renderTemplate cl w emptied cleared. subst emptied cleared.
  destruct cl as [rc si cb data sf].
  unfold_widget. simpl.
  destruct w as [[u r s c] a ps ns tr un]; simpl.
  unfold debounceCallee; simpl.
  split; [|split].
  - destruct cb as [b0|]; destruct s as [i|]; simpl; try reflexivity;
      destruct (renderTemplate "core_grades/searchwidget/searchresults"
                  (JObj [("searchresults", data)])) as [[html js]|e];
      reflexivity.
  - destruct cb as [b0|]; destruct s as [i|]; simpl; try reflexivity;
      destruct (renderTemplate "core_grades/searchwidget/searchresults"
                  (JObj [("searchresults", data)])) as [[html js]|e];
      try reflexivity; destruct rc as [[]|]; reflexivity.
  - intros b html js Hcb Hrc Hr Hc Hrender. subst cb rc c.
    destruct r as [r0|]; [clear Hr | congruence].
    destruct s as [i|]; simpl; rewrite Hrender; simpl;
      (split; [reflexivity|]); (split; [reflexivity|]);
      eexists; (split; [reflexivity|]); simpl; apply token_add_In.
Qed.

Example demo_closure_registered :
  option_map inputListeners (search (container Demo.ready))
  = Some [debounce Demo.closure 300]
  /\ option_map clickListeners (clearSearch (container Demo.ready))
     = Some [Demo.closure].
Proof. split; reflexivity. Qed.

Example demo_searching :
  searchResults (container Demo.searching) = Some "<li>Alice</li><li>Charlie</li>"
  /\ option_map classList (clearSearch (container Demo.searching)) = Some ["btn"]
  /\ option_map value (search (container Demo.searching)) = Some "a".
Proof. repeat split. Qed.

Example demo_click_clear :
  let w := exec (click_event Demo.renderTemplate) Demo.searching in
  searchResults (container w) = Some "<li>Alice</li><li>Bob</li><li>Charlie</li>"
  /\ option_map classList (clearSearch (container w)) = Some ["btn"; "d-none"]
  /\ option_map value (search (container w)) = Some "".
Proof. repeat split. Qed.

Lemma clear_click_equals_empty_input_witness :
  result (clearHandler Demo.renderTemplate Demo.closure) Demo.searching = Fulfilled tt /\
  searchResults (container Demo.cleared)
  = Some "<li>Alice</li><li>Bob</li><li>Charlie</li>" /\
  exists b', clearSearch (container Demo.cleared) = Some b' /\ In "d-none" (classList b').
Proof.
  apply (proj2 (proj2 (clear_click_equals_empty_input Demo.renderTemplate
                         Demo.closure Demo.searching))
               {| classList := ["btn"]; clickListeners := [Demo.closure] |}
               "<li>Alice</li><li>Bob</li><li>Charlie</li>" "").
  - reflexivity.
  - reflexivity.
  - simpl. discriminate.
  - reflexivity.
  - reflexivity.
Defined.

(** ** Debouncing the input *)

Section Debounce.

Variable renderTemplate : string -> JsVal -> Settled (Html * Js).

Local Opaque Nat.leb.

Lemma typed_registered :
  forall cl w i,
    search (container w) = Some i ->
    inputListeners i = [debounce cl 300] ->
    typed cl None (value i) w = w.
Proof.
  intros cl w i Hs Hl.
  destruct w as [[u r s c] a ps ns tr un]; simpl in *. subst s.
  destruct i as [v ls]; simpl in *. subst ls. reflexivity.
Qed.

Lemma typed_set_value :
  forall cl w i v,
    search (container w) = Some i ->
    inputListeners i = [debounce cl 300] ->
    typed cl None v w = exec (set_value searchControl v) w.
Proof.
  intros cl w i v Hs Hl.
  destruct w as [[u r s c] a ps ns tr un]; simpl in *. subst s.
  destruct i as [v0 ls]; simpl in *. subst ls. reflexivity.
Qed.

(** An 'input' event before the pending call is due re-arms the timer. *)
Lemma input_event_typed :
  forall cl pending v w now v',
    search (container w) <> None ->
    (forall t, pending = Some t -> now < t) ->
    input_event renderTemplate now v' (typed cl pending v w)
    = (Fulfilled tt, typed cl (Some (now + 300)) v' w).
Proof.
  intros cl pending v w now v' Hs Hp.
  destruct w as [[u r s c] a ps ns tr un]; simpl in *.
  destruct s as [i|]; [clear Hs | congruence].
  unfold input_event, advance, bind, set_value, typed; simpl.
  unfold due; simpl.
  destruct pending as [t|]; simpl.
  - specialize (Hp t eq_refl).
    unfold disarm, due; simpl.
    destruct (t <=? now)%nat eqn:Hdue;
      [apply Nat.leb_le in Hdue; lia |].
    simpl. unfold with_container, map_search, map_inputListeners; simpl.
    rewrite Hdue. reflexivity.
  - reflexivity.
Qed.

Lemma play_typed :
  forall earlier cl pending v w t v',
    search (container w) <> None ->
    (forall d t1 v1, pending = Some d -> In (t1, v1) (earlier ++ [(t, v')]) -> t1 < d) ->
    (forall t1 v1, In (t1, v1) earlier -> t1 <= t /\ t < t1 + 300) ->
    play renderTemplate (earlier ++ [(t, v')]) (typed cl pending v w)
    = (Fulfilled tt, typed cl (Some (t + 300)) v' w).
Proof.
  induction earlier as [|[t0 v0] earlier IH];
    intros cl pending v w t v' Hs Hp Hwin; simpl.
  - unfold bind. rewrite input_event_typed; [reflexivity | exact Hs |].
    intros d Hd. apply (Hp d t v' Hd). left. reflexivity.
  - unfold bind at 1. rewrite input_event_typed; [| exact Hs |].
    + apply IH; [exact Hs | |].
      * intros d t1 v1 Hd Hin. injection Hd as Hd. subst d.
        apply in_app_or in Hin. destruct Hin as [Hin | [Hin | []]].
        -- destruct (Hwin t1 v1 (or_intror Hin)) as [H1 _].
           destruct (Hwin t0 v0 (or_introl eq_refl)) as [_ H2]. lia.
        -- injection Hin as Ht Hv. subst t1.
           destruct (Hwin t0 v0 (or_introl eq_refl)) as [_ H2]. exact H2.
      * intros t1 v1 Hin. apply (Hwin t1 v1). right. exact Hin.
    + intros d Hd. apply (Hp d t0 v0 Hd). left. reflexivity.
Qed.

(** Time passing on an armed timer. *)
Lemma advance_typed :
  forall cl d v w T,
    search (container w) <> None ->
    advance renderTemplate T (typed cl (Some d) v w)
    = if (d <=? T)%nat
      then (Fulfilled tt,
            exec (unawaited (inputHandler renderTemplate cl)) (typed cl None v w))
      else (Fulfilled tt, typed cl (Some d) v w).
Proof.
  intros cl d v w T Hs.
  destruct w as [[u r s c] a ps ns tr un]; simpl in *.
  destruct s as [i|]; [clear Hs | congruence].
  unfold advance, typed; simpl. unfold due, disarm, due; simpl.
  unfold with_container, map_search, map_inputListeners; simpl.
  destruct (d <=? T)%nat eqn:Hdue; simpl; [|reflexivity].
  unfold bind, exec, ret, unawaited.
  destruct (inputHandler renderTemplate cl _) as [[[]|e] w1]; reflexivity.
Qed.

(** One run of the input handler is one filter-and-render cycle on the
    value the input holds when the handler runs. *)
Lemma inputHandler_cycle :
  forall cl w i,
    search (container w) = Some i ->
    cClearSearchButton cl <> None ->
    let w' := exec (unawaited (inputHandler renderTemplate cl)) w in
    cycles w' = S (cycles w) /\
    exists rest,
      trace w'
      = trace w
        ++ TemplateRender searchresultsTemplate
             (resultsContext (debounceCallee (value i) (cData cl) (cSearchFunc cl tt)))
           :: rest.
Proof.
  intros cl w i Hs Hc w'. subst w'.
  destruct cl as [rc si cb data sf]; simpl in *.
  destruct cb as [b0|]; [clear Hc | congruence].
  destruct w as [[u r s c] a ps ns tr un]; simpl in *. subst s.
  unfold cycles. unfold_widget. simpl.
  destruct (0 <? String.length (value i))%nat; simpl;
    destruct (renderTemplate "core_grades/searchwidget/searchresults" _)
      as [[html js]|e]; simpl;
    try (destruct rc as [[]|]; simpl);
    rewrite ?filter_app, ?length_app; simpl;
    (split; [lia | eexists; rewrite <- ?app_assoc; simpl; reflexivity]).
Qed.

End Debounce.

(** C6: a burst of [N >= 1] 'input' events that all fall within a window
    shorter than 300ms (every event is at most as late as the last one, at
    [t], and less than 300ms before it), on a widget whose input carries the
    one debounced listener that [registerListenerEvents] adds.  Until 300ms
    after the last event nothing runs: the timer is pending and no cycle has
    started.  From then on the handler has run exactly once, on the input as
    the last event left it; with the clear button in place that is exactly
    one filter-and-render cycle, on the value [v] of the last event. *)
Theorem debounce_coalesces :
  forall (renderTemplate : string -> JsVal -> Settled (Html * Js))
         (w : World) (i : HTMLInputElement) (cl : Closure)
         (earlier : list (nat * string)) (t : nat) (v : string),
    search (container w) = Some i ->
    inputListeners i = [debounce cl 300] ->
    (forall t1 v1, In (t1, v1) earlier -> t1 <= t /\ t < t1 + 300) ->
    let burst := earlier ++ [(t, v)] in
    let at_time T := exec (play renderTemplate burst ;;; advance renderTemplate T) w in
    (forall T, T < t + 300 ->
               at_time T = typed cl (Some (t + 300)) v w /\
               cycles (at_time T) = cycles w) /\
    (forall T, t + 300 <= T ->
               at_time T
               = exec (unawaited (inputHandler renderTemplate cl))
                      (exec (set_value searchControl v) w) /\
               (cClearSearchButton cl <> None ->
                cycles (at_time T) = S (cycles w) /\
                exists rest,
                  trace (at_time T)
                  = trace w
                    ++ TemplateRender searchresultsTemplate
                         (resultsContext
                            (debounceCallee v (cData cl) (cSearchFunc cl tt)))
                       :: rest)).
Proof.
  intros renderTemplate w i cl earlier t v Hs Hl Hwin burst at_time.
  assert (Hpresent : search (container w) <> None) by congruence.
  assert (Hplay : play renderTemplate burst w
                  = (Fulfilled tt, typed cl (Some (t + 300)) v w)).
  { pose proof (play_typed renderTemplate earlier cl None (value i) w t v Hpresent)
      as H.
    rewrite (typed_registered cl w i Hs Hl) in H.
    apply H; [intros d t1 v1 Hd; discriminate | exact Hwin]. }
  assert (Hat : forall T, at_time T
                          = snd (advance renderTemplate T
                                   (typed cl (Some (t + 300)) v w))).
  { intro T. unfold at_time, exec, bind. rewrite Hplay. reflexivity. }
  split; intros T HT; rewrite Hat, advance_typed by exact Hpresent.
  - destruct (t + 300 <=? T)%nat eqn:Hdue;
      [apply Nat.leb_le in Hdue; lia |].
    split; reflexivity.
  - destruct (t + 300 <=? T)%nat eqn:Hdue;
      [| apply Nat.leb_gt in Hdue; lia].
    simpl. rewrite (typed_set_value cl w i v Hs Hl).
    split; [reflexivity|].
    intro Hclear.
    assert (Hv : search (container (exec (set_value searchControl v) w))
                 = Some {| value := v; inputListeners := inputListeners i |}).
    { unfold exec, set_value; simpl. rewrite Hs. reflexivity. }
    destruct (inputHandler_cycle renderTemplate cl _ _ Hv Hclear) as [Hc [rest Ht]].
    split; [exact Hc | exists rest; exact Ht].
Qed.

Lemma debounce_coalesces_witness :
  cycles (Demo.at_time 1549) = cycles Demo.ready /\
  cycles (Demo.at_time 1550) = S (cycles Demo.ready) /\
  searchResults (container (Demo.at_time 1550)) = Some "<li>Alice</li>".
Proof.
  destruct (debounce_coalesces Demo.renderTemplate Demo.ready
              {| value := ""; inputListeners := [debounce Demo.closure 300] |}
              Demo.closure [(1000, "a"); (1100, "al")] 1250 "ali")
    as [Hquiet Hfire].
  - reflexivity.
  - reflexivity.
  - intros t1 v1 [H | [H | []]]; injection H as Ht Hv; subst t1; lia.
  - split; [| split].
    + apply (Hquiet 1549). lia.
    + apply (Hfire 1550); [lia | discriminate].
    + reflexivity.
Defined.

(** * Further properties of the module *)

(** ** Registering the listeners *)

(** One call of [registerListenerEvents] on a container that has the search
    input and the clear button. *)
Lemma registerListenerEvents_step :
  forall (w : World) (data : JsVal) (searchFunc : SearchFactory)
         (i : HTMLInputElement) (b : HTMLButtonElement),
    search (container w) = Some i ->
    clearSearch (container w) = Some b ->
    let cl := registeredClosure w data searchFunc in
    registerListenerEvents data searchFunc w
    = (Fulfilled tt,
       with_container
         (fun wd => {| unsearchableContent := unsearchableContent wd;
                       searchResults := searchResults wd;
                       search := Some {| value := value i;
                                         inputListeners := inputListeners i
                                                           ++ [debounce cl 300] |};
                       clearSearch := Some {| classList := classList b;
                                              clickListeners := clickListeners b ++ [cl] |} |})
         (with_activeElement (Some searchControl) w)).
Proof.
  intros w data searchFunc i b Hs Hc cl. subst cl.
  unfold registeredClosure.
  destruct w as [[u r s c] a ps ns tr un]; simpl in *. subst s c.
  unfold_widget. simpl. reflexivity.
Qed.

(** X1: [registerListenerEvents] adds, it never replaces: on a container with
    a search input and a clear button, [n] calls leave every listener that was
    there and append [n] copies of the debounced input listener and [n] copies
    of the click listener, while the value of the input, the classes of the
    button and the two regions stay as they were.  Two calls thus make every
    later event run its handler twice. *)
Theorem registerListenerEvents_accumulates :
  forall (n : nat) (w : World) (data : JsVal) (searchFunc : SearchFactory)
         (i : HTMLInputElement) (b : HTMLButtonElement),
    search (container w) = Some i ->
    clearSearch (container w) = Some b ->
    let cl := registeredClosure w data searchFunc in
    let w' := exec (times n (registerListenerEvents data searchFunc)) w in
    result (times n (registerListenerEvents data searchFunc)) w = Fulfilled tt /\
    search (container w')
    = Some {| value := value i;
              inputListeners := inputListeners i ++ repeat (debounce cl 300) n |} /\
    clearSearch (container w')
    = Some {| classList := classList b;
              clickListeners := clickListeners b ++ repeat cl n |} /\
    searchResults (container w') = searchResults (container w) /\
    unsearchableContent (container w') = unsearchableContent (container w).
Proof.
  induction n as [|n IH]; intros w data searchFunc i b Hs Hc cl w'; subst cl w'.
  - unfold exec, result; simpl. rewrite Hs, Hc, !app_nil_r.
    destruct i, b; repeat split.
  - unfold exec, result in *. simpl. unfold bind.
    rewrite (registerListenerEvents_step w data searchFunc i b Hs Hc).
    match goal with
    | |- context [times n _ ?w1] =>
        specialize (IH w1 data searchFunc _ _ eq_refl eq_refl);
        assert (Hcl : registeredClosure w1 data searchFunc
                      = registeredClosure w data searchFunc)
    end.
    { unfold registeredClosure; simpl. rewrite Hc. reflexivity. }
    simpl in IH. rewrite Hcl in IH.
    destruct IH as [Hr [Hi [Hb [Hres Hu]]]].
    rewrite Hr, Hi, Hb, Hres, Hu. simpl.
    rewrite <- !app_assoc. simpl. repeat split.
Qed.

Lemma registerListenerEvents_accumulates_witness :
  search (container (exec (times 2 (registerListenerEvents Demo.names Demo.searchFunc))
                          DemoEdge.mounted))
  = Some {| value := "";
            inputListeners := [debounce Demo.closure 300; debounce Demo.closure 300] |}.
Proof.
  apply (registerListenerEvents_accumulates 2 DemoEdge.mounted Demo.names Demo.searchFunc
           {| value := ""; inputListeners := [] |}
           {| classList := ["btn"; "d-none"]; clickListeners := [] |}
           eq_refl eq_refl).
Defined.

(** X2: on a container that has the search input but no clear button,
    [registerListenerEvents] throws a [TypeError] only after it has moved the
    focus to the input and added the debounced input listener; that listener
    holds [null] for the clear button. *)
Theorem registerListenerEvents_without_clear_button :
  forall (w : World) (data : JsVal) (searchFunc : SearchFactory) (i : HTMLInputElement),
    search (container w) = Some i ->
    clearSearch (container w) = None ->
    let cl := registeredClosure w data searchFunc in
    let w' := exec (registerListenerEvents data searchFunc) w in
    result (registerListenerEvents data searchFunc) w
    = Rejected (TypeError "Cannot read properties of null (reading 'addEventListener')") /\
    cClearSearchButton cl = None /\
    search (container w')
    = Some {| value := value i;
              inputListeners := inputListeners i ++ [debounce cl 300] |} /\
    activeElement w' = Some searchControl.
Proof.
  intros w data searchFunc i Hs Hc cl w'. subst cl w'.
  unfold registeredClosure.
  destruct w as [[u r s c] a ps ns tr un]; simpl in *. subst s c.
  unfold_widget. simpl. repeat split.
Qed.

Lemma registerListenerEvents_without_clear_button_witness :
  result (registerListenerEvents Demo.names Demo.searchFunc)
         (exec (set_container_innerHTML DemoEdge.noClearBody) Demo.page)
  = Rejected (TypeError "Cannot read properties of null (reading 'addEventListener')").
Proof.
  apply (registerListenerEvents_without_clear_button
           (exec (set_container_innerHTML DemoEdge.noClearBody) Demo.page)
           Demo.names Demo.searchFunc {| value := ""; inputListeners := [] |}
           eq_refl eq_refl).
Defined.

(** ** What [init] builds *)

(** X3: when the body has all four parts and both templates render, a run of
    [init] ends with the container holding: the unsearchable region of the
    body with the unsearchable content appended to what the body had there
    (and untouched when that content is [null] or empty), the results
    template applied to the whole dataset, the search input with the value
    the body gave it and exactly one debounced (300ms) input listener, and
    the clear button with the classes of the body and exactly one click
    listener.  The focus is on the search input, nothing has been reported,
    and the templates were used in the order loading, results. *)
Theorem init_builds_widget :
  forall (parseHTML : JsVal -> Markup)
         (renderTemplate : string -> JsVal -> Settled (Html * Js))
         (w : World) (p : PromiseId) (data : JsVal) (searchFunc : SearchFactory)
         (unsearchableContent : option string) (bodyContent : JsVal) (w' : World)
         (u0 r0 : Html) (v0 : string) (c0 : list string)
         (lhtml : Html) (ljs : Js) (rhtml : Html) (rjs : Js),
    initialised parseHTML renderTemplate w p data searchFunc unsearchableContent
                (Fulfilled bodyContent) w' ->
    parseHTML bodyContent = {| unsearchableMarkup := Some u0;
                               resultsMarkup := Some r0;
                               searchMarkup := Some v0;
                               clearMarkup := Some c0 |} ->
    renderTemplate loadingTemplate (JObj []) = Fulfilled (lhtml, ljs) ->
    renderTemplate searchresultsTemplate (resultsContext data) = Fulfilled (rhtml, rjs) ->
    let cl := {| cSearchResultsContainer := Some searchResultsRegion;
                 cSearchInput := searchControl;
                 cClearSearchButton := Some clearSearchControl;
                 cData := data;
                 cSearchFunc := searchFunc |} in
    container w'
    = {| unsearchableContent :=
           Some (match unsearchableContent with
                 | Some s => if truthy unsearchableContent then String.append u0 s else u0
                 | None => u0
                 end);
         searchResults := Some rhtml;
         search := Some {| value := v0; inputListeners := [debounce cl 300] |};
         clearSearch := Some {| classList := c0; clickListeners := [cl] |} |} /\
    activeElement w' = Some searchControl /\
    notifications w' = notifications w /\
    trace w' = trace w ++ [TemplateRender loadingTemplate (JObj []);
                           NodeReplaced (Some searchResultsRegion) lhtml ljs;
                           TemplateRender searchresultsTemplate (resultsContext data);
                           NodeReplaced (Some searchResultsRegion) rhtml rjs].
Proof.
  intros parseHTML renderTemplate w p data searchFunc unsearchableContent
         bodyContent w' u0 r0 v0 c0 lhtml ljs rhtml rjs Hrun Hbody Hl Hr cl.
  destruct (initialised_react _ _ _ _ _ _ _ _ _ Hrun)
    as [w0 [[Hc [Ha [Hn [Ht Hu]]]] Hw']].
  subst w' cl. rewrite <- Hn, <- Ht. clear Hrun Hc Ha Hn Ht Hu.
  unfold_widget. simpl. rewrite Hbody. simpl.
  destruct unsearchableContent as [[|c s]|]; simpl;
    rewrite Hl; simpl; rewrite Hr; simpl;
    repeat split; rewrite <- !app_assoc; reflexivity.
Qed.

Lemma init_builds_widget_witness :
  container DemoEdge.withHelp
  = {| unsearchableContent := Some "<h5>Other</h5><p>Help</p>";
       searchResults := Some "<li>Alice</li><li>Bob</li><li>Charlie</li>";
       search := Some {| value := ""; inputListeners := [debounce Demo.closure 300] |};
       clearSearch := Some {| classList := ["btn"; "d-none"];
                              clickListeners := [Demo.closure] |} |}.
Proof.
  apply (init_builds_widget Demo.parseHTML Demo.renderTemplate Demo.waiting 0
           Demo.names Demo.searchFunc (Some "<p>Help</p>") (JStr "<widget/>")
           DemoEdge.withHelp "<h5>Other</h5>" "" "" ["btn"; "d-none"]
           "<loading/>" "" "<li>Alice</li><li>Bob</li><li>Charlie</li>" "").
  - left. split; reflexivity.
  - reflexivity.
  - reflexivity.
  - reflexivity.
Defined.

Lemma update_nth_const_twice :
  forall (A : Type) (c : A) (f : A -> A) (l : list A) (n : nat),
    update_nth n (fun _ => c) (update_nth n f l) = update_nth n (fun _ => c) l.
Proof.
  intros A c f l. induction l as [|x l IH]; intros [|n]; simpl;
    try reflexivity.
  rewrite IH. reflexivity.
Qed.

(** X4: [init] may be called before or after the body arrives.  Called on a
    pending body promise it only attaches its chain: the promise stays
    pending and the page (container, focus, notifications, trace) is as it
    was.  And calling [init] and then settling the promise ends in the very
    same world as settling the promise and then calling [init]. *)
Theorem init_commutes_with_body :
  forall (parseHTML : JsVal -> Markup)
         (renderTemplate : string -> JsVal -> Settled (Html * Js))
         (w : World) (p : PromiseId) (data : JsVal) (searchFunc : SearchFactory)
         (unsearchableContent : option string) (s : Settled JsVal),
    nth_error (promises w) p = Some {| pstate := Pending; reactions := [] |} ->
    let call := init parseHTML renderTemplate p data searchFunc unsearchableContent in
    let arrive := settle parseHTML renderTemplate p s in
    same_page (exec call w) w /\
    promise_state p (exec call w) = Some Pending /\
    exec (call ;;; arrive) w = exec (arrive ;;; call) w.
Proof.
  intros parseHTML renderTemplate w p data searchFunc unsearchableContent s Hp
         call arrive. subst call arrive.
  assert (Hcall : forall r, then_catch parseHTML renderTemplate p r w
                            = (Fulfilled tt,
                               with_promises
                                 (update_nth p (fun c => {| pstate := pstate c;
                                                            reactions := reactions c ++ [r] |}))
                                 w)).
  { intro r. unfold then_catch. rewrite Hp. reflexivity. }
  split; [|split].
  - unfold exec, init, unawaited. rewrite Hcall. repeat split.
  - unfold exec, init, unawaited. rewrite Hcall. unfold promise_state; simpl.
    rewrite (nth_error_update_nth _ _ _ _ _ Hp). reflexivity.
  - unfold exec, bind, init, unawaited. rewrite Hcall.
    unfold settle; simpl. rewrite Hp; simpl.
    rewrite (nth_error_update_nth _ _ _ _ _ Hp); simpl.
    unfold bind, ret, then_catch; simpl.
    rewrite (nth_error_update_nth _ _ _ _ _ Hp); simpl.
    unfold with_promises at 1 2; simpl.
    rewrite update_nth_const_twice.
    unfold unawaited, with_promises.
    match goal with
    | |- context [react _ _ ?r s ?w2] =>
        destruct (react parseHTML renderTemplate r s w2) as [[[]|e] w3] eqn:Hreact
    end; simpl; rewrite ?Hreact; try reflexivity.
Qed.

Lemma init_commutes_with_body_witness :
  exec (init Demo.parseHTML Demo.renderTemplate 0 Demo.names Demo.searchFunc None ;;;
        settle Demo.parseHTML Demo.renderTemplate 0 (Fulfilled (JStr "<widget/>")))
       Demo.waiting
  = exec (settle Demo.parseHTML Demo.renderTemplate 0 (Fulfilled (JStr "<widget/>")) ;;;
          init Demo.parseHTML Demo.renderTemplate 0 Demo.names Demo.searchFunc None)
         Demo.waiting.
Proof.
  apply (init_commutes_with_body Demo.parseHTML Demo.renderTemplate Demo.waiting 0
           Demo.names Demo.searchFunc None (Fulfilled (JStr "<widget/>")) eq_refl).
Defined.

(** ** The handlers *)

Lemma token_remove_not_In : forall c cs, ~ In c (token_remove c cs).
Proof.
  intros c cs Hin. unfold token_remove in Hin.
  apply filter_In in Hin. destruct Hin as [_ Hneq].
  rewrite String.eqb_refl in Hneq. discriminate.
Qed.

(** X5: the input handler on a non-empty query.  With the nodes that
    [registerListenerEvents] found, a non-empty value [v] in the input and a
    results template that renders, the handler shows the clear button (its
    classes are the old ones without [d-none]), puts into the results region
    the template applied to [searchFunc()(data, v)], and leaves the input and
    the unsearchable region alone. *)
Theorem inputHandler_filters :
  forall (renderTemplate : string -> JsVal -> Settled (Html * Js))
         (cl : Closure) (w : World) (i : HTMLInputElement) (b : HTMLButtonElement)
         (r0 html : Html) (js : Js),
    search (container w) = Some i ->
    value i <> "" ->
    clearSearch (container w) = Some b ->
    searchResults (container w) = Some r0 ->
    cClearSearchButton cl = Some clearSearchControl ->
    cSearchResultsContainer cl = Some searchResultsRegion ->
    renderTemplate searchresultsTemplate
                   (resultsContext (cSearchFunc cl tt (cData cl) (value i)))
    = Fulfilled (html, js) ->
    let w' := exec (inputHandler renderTemplate cl) w in
    result (inputHandler renderTemplate cl) w = Fulfilled tt /\
    searchResults (container w') = Some html /\
    clearSearch (container w')
    = Some {| classList := token_remove "d-none" (classList b);
              clickListeners := clickListeners b |} /\
    ~ In "d-none" (token_remove "d-none" (classList b)) /\
    search (container w') = Some i /\
    unsearchableContent (container w') = unsearchableContent (container w).
Proof.
  intros renderTemplate cl w i b r0 html js Hs Hv Hc Hr Hcb Hrc Hrender w'.
  subst w'. destruct cl as [rc si cb data sf]; simpl in *. subst rc cb.
  destruct w as [[u r s c] a ps ns tr un]; simpl in *. subst s c r.
  destruct i as [[|ch rest] ls]; simpl in *; [congruence|].
  unfold_widget. unfold debounceCallee. simpl.
  rewrite Hrender. simpl.
  repeat split. apply token_remove_not_In.
Qed.

Lemma inputHandler_filters_witness :
  searchResults (container Demo.searching) = Some "<li>Alice</li><li>Charlie</li>" /\
  clearSearch (container Demo.searching)
  = Some {| classList := token_remove "d-none" ["btn"; "d-none"];
            clickListeners := [Demo.closure] |}.
Proof.
  pose proof (inputHandler_filters Demo.renderTemplate Demo.closure
                (exec (set_value searchControl "a") Demo.ready)
                {| value := "a"; inputListeners := [debounce Demo.closure 300] |}
                {| classList := ["btn"; "d-none"]; clickListeners := [Demo.closure] |}
                "<li>Alice</li><li>Bob</li><li>Charlie</li>"
                "<li>Alice</li><li>Charlie</li>" ""
                eq_refl) as H.
  destruct H as [_ [Hres [Hclear _]]];
    try reflexivity; try discriminate.
  split; [exact Hres | exact Hclear].
Defined.

(** X6: a results template that fails while the widget is in use is reported
    to nobody.  In the input handler and in the click handler alike the
    rejection leaves the handler (there is no [catch] around it), the
    notification surface receives nothing, and the results region keeps what
    it showed; fired as an event listener, the handler leaves the rejection
    unhandled. *)
Theorem handler_template_failure_unreported :
  forall (renderTemplate : string -> JsVal -> Settled (Html * Js))
         (cl : Closure) (w : World) (e : JsVal),
    cClearSearchButton cl <> None ->
    (forall context, renderTemplate searchresultsTemplate context = Rejected e) ->
    forall handler,
      handler = inputHandler renderTemplate cl \/ handler = clearHandler renderTemplate cl ->
      result handler w = Rejected e /\
      notifications (exec handler w) = notifications w /\
      searchResults (container (exec handler w)) = searchResults (container w) /\
      unhandled (exec (unawaited handler) w) = unhandled w ++ [e].
Proof.
  intros renderTemplate cl w e Hcb Hfail handler Hh.
  destruct cl as [rc si cb data sf]; simpl in *.
  destruct cb as [b0|]; [clear Hcb | congruence].
  destruct w as [[u r s c] a ps ns tr un].
  destruct Hh; subst handler; unfold_widget; simpl.
  - destruct (0 <? String.length match s with
                                   | Some i => value i
                                   | None => ""
                                   end)%nat; simpl;
      rewrite Hfail; simpl; repeat split.
  - rewrite Hfail; simpl; repeat split.
Qed.

Lemma handler_template_failure_unreported_witness :
  result (clearHandler DemoEdge.brokenResults Demo.closure) Demo.searching
  = Rejected DemoEdge.searchError /\
  notifications (exec (clearHandler DemoEdge.brokenResults Demo.closure) Demo.searching)
  = notifications Demo.searching /\
  searchResults (container (exec (clearHandler DemoEdge.brokenResults Demo.closure)
                                 Demo.searching))
  = searchResults (container Demo.searching) /\
  unhandled (exec (unawaited (clearHandler DemoEdge.brokenResults Demo.closure))
                  Demo.searching)
  = unhandled Demo.searching ++ [DemoEdge.searchError].
Proof.
  apply (handler_template_failure_unreported DemoEdge.brokenResults Demo.closure
           Demo.searching DemoEdge.searchError).
  - discriminate.
  - intro context. reflexivity.
  - right. reflexivity.
Defined.

(** ** What a session of user events keeps *)

Lemma kept_refl : forall w, kept w w.
Proof. intro w. repeat split. Qed.

Lemma kept_trans : forall w1 w2 w3, kept w1 w2 -> kept w2 w3 -> kept w1 w3.
Proof.
  intros w1 w2 w3 [A1 [A2 [A3 [A4 [A5 A6]]]]] [B1 [B2 [B3 [B4 [B5 B6]]]]].
  repeat split; congruence.
Qed.

Lemma kept_listeners_registered :
  forall w w', kept w w' -> listeners_registered w -> listeners_registered w'.
Proof.
  intros w w' [_ [_ [Hi [Hc _]]]] [Li Lc]. unfold listeners_registered.
  destruct (search (container w)) as [i|], (search (container w')) as [i'|];
    simpl in Hi; try discriminate;
    destruct (clearSearch (container w)) as [b|],
             (clearSearch (container w')) as [b'|];
    simpl in Hc; try discriminate;
    try (injection Hi as Hi; rewrite Hi);
    try (injection Hc as Hc; rewrite Hc);
    split; assumption.
Qed.

Lemma keeps_ret : keeps (ret tt).
Proof. intros w _. exists w. split; [reflexivity | apply kept_refl]. Qed.

Lemma keeps_bind : forall m k, keeps m -> keeps k -> keeps (m ;;; k).
Proof.
  intros m k Hm Hk w Hw. destruct (Hm w Hw) as [w1 [Hw1 K1]].
  destruct (Hk w1 (kept_listeners_registered _ _ K1 Hw)) as [w2 [Hw2 K2]].
  exists w2. unfold bind. rewrite Hw1. split; [exact Hw2 | ].
  apply (kept_trans _ _ _ K1 K2).
Qed.

Lemma keeps_with_search :
  forall f,
    (forall i, map callee (inputListeners (f i)) = map callee (inputListeners i)) ->
    keeps (fun w => (Fulfilled tt, with_container (map_search f) w)).
Proof.
  intros f Hf w _. eexists. split; [reflexivity|].
  destruct w as [[u r s c] a ps ns tr un]; repeat split; simpl.
  destruct s as [i|]; simpl; [rewrite Hf|]; reflexivity.
Qed.

Section Sessions.

Variable renderTemplate : string -> JsVal -> Settled (Html * Js).

(** A handler of a closure built by [registerListenerEvents], fired as a
    listener. *)
Lemma handlers_kept :
  forall cl w,
    from_registration cl ->
    (exists w', unawaited (inputHandler renderTemplate cl) w = (Fulfilled tt, w') /\
                kept w w') /\
    (exists w', unawaited (clearHandler renderTemplate cl) w = (Fulfilled tt, w') /\
                kept w w').
Proof.
  intros [rc si cb data sf] [[u r s c] a ps ns tr un] Hrc.
  assert (Hrc' : rc = None \/ rc = Some searchResultsRegion) by exact Hrc.
  clear Hrc.
  split; unfold_widget; simpl;
    destruct cb as [b0|]; simpl;
    try (destruct (0 <? String.length match s with
                                        | Some i => value i
                                        | None => ""
                                        end)%nat; simpl);
    try (eexists; split; [reflexivity|];
         repeat split; simpl; destruct s; reflexivity);
    match goal with
    | |- context [renderTemplate ?name ?ctx] =>
        destruct (renderTemplate name ctx) as [[html js]|e]
    end; simpl;
    try (destruct Hrc' as [Hrc' | Hrc']; subst rc; simpl);
    (eexists; split; [reflexivity|]);
    repeat split; simpl;
    try (destruct s; reflexivity); try (destruct c; reflexivity);
    try (destruct r; reflexivity).
Qed.

Lemma run_callbacks_kept :
  forall (handler : Closure -> M unit) cls,
    (forall cl w, from_registration cl ->
                  exists w', unawaited (handler cl) w = (Fulfilled tt, w') /\ kept w w') ->
    Forall from_registration cls ->
    forall w, exists w', run_callbacks handler cls w = (Fulfilled tt, w') /\ kept w w'.
Proof.
  intros handler cls Hh. induction cls as [|cl cls IH]; intros Hok w; simpl.
  - exists w. split; [reflexivity | apply kept_refl].
  - inversion Hok as [|x xs Hcl Hcls]; subst.
    destruct (Hh cl w Hcl) as [w1 [Hw1 K1]].
    destruct (IH Hcls w1) as [w2 [Hw2 K2]].
    exists w2. unfold bind. rewrite Hw1. split; [exact Hw2|].
    apply (kept_trans _ _ _ K1 K2).
Qed.

Lemma callee_disarm : forall now d, callee (disarm now d) = callee d.
Proof. intros now d. unfold disarm. destruct (due now d); reflexivity. Qed.

Lemma Forall_map_filter :
  forall (A B : Type) (P : B -> Prop) (f : A -> B) (g : A -> bool) (l : list A),
    Forall P (map f l) -> Forall P (map f (filter g l)).
Proof.
  intros A B P f g l. induction l as [|x l IH]; simpl; intro H; [constructor|].
  inversion H; subst. destruct (g x); simpl; [constructor|]; auto.
Qed.

Lemma keeps_advance : forall now, keeps (advance renderTemplate now).
Proof.
  intros now w Hw. unfold advance.
  destruct (keeps_with_search (map_inputListeners (disarm now))) with (w := w)
    as [w1 [Hw1 K1]]; [| exact Hw |].
  { intro i. simpl. rewrite map_map. apply map_ext. intro d. apply callee_disarm. }
  injection Hw1 as Hw1. rewrite Hw1.
  destruct (run_callbacks_kept (inputHandler renderTemplate)
              (map callee match search (container w) with
                          | Some i => filter (due now) (inputListeners i)
                          | None => []
                          end)
              (fun cl w0 H => proj1 (handlers_kept cl w0 H))) with (w := w1)
    as [w2 [Hw2 K2]].
  { destruct Hw as [Hi _]. destruct (search (container w)) as [i|]; [|constructor].
    apply Forall_map_filter. exact Hi. }
  exists w2. split; [exact Hw2 | apply (kept_trans _ _ _ K1 K2)].
Qed.

Lemma keeps_input_event : forall now v, keeps (input_event renderTemplate now v).
Proof.
  intros now v. unfold input_event.
  apply keeps_bind; [apply keeps_advance|].
  apply keeps_bind.
  - unfold set_value. apply keeps_with_search. reflexivity.
  - apply keeps_with_search. intro i. simpl. rewrite map_map. reflexivity.
Qed.

Lemma keeps_click_event : keeps (click_event renderTemplate).
Proof.
  intros w Hw. unfold click_event.
  apply run_callbacks_kept.
  - intros cl w0 H. apply (proj2 (handlers_kept cl w0 H)).
  - destruct Hw as [_ Hc]. exact Hc.
Qed.

End Sessions.

(** X7: on a widget whose listeners were built by [registerListenerEvents],
    whatever the user does (typing, clicking the clear button, waiting, in
    any order and at any times), every event is handled without an exception
    reaching the dispatcher, and the session keeps the unsearchable region,
    the presence of the results region, the listeners that are registered
    (only their timers change), the promise store and the notifications: no
    handler reports to [Notification], adds or removes a listener, or touches
    the unsearchable content. *)
Theorem session_keeps_widget :
  forall (renderTemplate : string -> JsVal -> Settled (Html * Js))
         (evs : list UserEvent) (w : World),
    listeners_registered w ->
    result (session renderTemplate evs) w = Fulfilled tt /\
    kept w (exec (session renderTemplate evs) w).
Proof.
  intros renderTemplate evs.
  assert (H : keeps (session renderTemplate evs)).
  { induction evs as [|ev evs IH]; simpl.
    - apply keeps_ret.
    - apply keeps_bind; [|exact IH].
      destruct ev as [now v| |now]; simpl.
      + apply keeps_input_event.
      + apply keeps_click_event.
      + apply keeps_advance. }
  intros w Hw. destruct (H w Hw) as [w' [Hw' K]].
  unfold result, exec. rewrite Hw'. split; [reflexivity | exact K].
Qed.

Lemma session_keeps_widget_witness :
  result (session Demo.renderTemplate DemoEdge.events) Demo.ready = Fulfilled tt /\
  kept Demo.ready (exec (session Demo.renderTemplate DemoEdge.events) Demo.ready).
Proof.
  apply (session_keeps_widget Demo.renderTemplate DemoEdge.events Demo.ready).
  split; simpl; (constructor; [right; reflexivity | constructor]).
Defined.

Example demo_session :
  let w := exec (session Demo.renderTemplate DemoEdge.events) Demo.ready in
  searchResults (container w) = Some "<li>Bob</li>"
  /\ option_map value (search (container w)) = Some "bo"
  /\ option_map classList (clearSearch (container w)) = Some ["btn"]
  /\ cycles w = cycles Demo.ready + 3.
Proof. repeat split. Qed.

(** ** A click on the clear button while a search is pending *)

Lemma token_add_idempotent :
  forall c cs, token_add c (token_add c cs) = token_add c cs.
Proof.
  intros c cs. unfold token_add at 2.
  destruct (existsb (String.eqb c) cs) eqn:Hex.
  - unfold token_add. rewrite Hex. reflexivity.
  - unfold token_add. rewrite existsb_app, Hex. simpl.
    rewrite String.eqb_refl. reflexivity.
Qed.

Section PendingSearch.

Variable renderTemplate : string -> JsVal -> Settled (Html * Js).

Lemma clearHandler_typed :
  forall (cl : Closure) (w : World) (pending : option nat) (v : string),
    search (container w) <> None ->
    unawaited (clearHandler renderTemplate cl) (typed cl pending v w)
    = (Fulfilled tt,
       typed cl pending "" (exec (unawaited (clearHandler renderTemplate cl)) w)).
Proof.
  intros [rc si cb data sf] [[u r s c] a ps ns tr un] pending v Hs.
  simpl in Hs. destruct s as [i|]; [clear Hs | congruence].
  unfold typed. unfold_widget. unfold debounceCallee. simpl.
  destruct cb as [b0|]; simpl; [|reflexivity].
  destruct (renderTemplate "core_grades/searchwidget/searchresults"
              (JObj [("searchresults", data)])) as [[html js]|e]; simpl;
    [destruct rc as [[]|]; reflexivity | reflexivity].
Qed.

Lemma clearHandler_keeps_search :
  forall (cl : Closure) (w : World),
    search (container w) <> None ->
    search (container (exec (unawaited (clearHandler renderTemplate cl)) w)) <> None.
Proof.
  intros [rc si cb data sf] [[u r s c] a ps ns tr un] Hs.
  simpl in Hs. destruct s as [i|]; [clear Hs | congruence].
  unfold_widget. unfold debounceCallee. simpl.
  destruct cb as [b0|]; simpl; [|discriminate].
  destruct (renderTemplate "core_grades/searchwidget/searchresults"
              (JObj [("searchresults", data)])) as [[html js]|e]; simpl;
    [destruct rc as [[]|]; discriminate | discriminate].
Qed.

(** Right after the click handler, the input handler finds nothing to
    change in the container. *)
Lemma inputHandler_after_clearHandler :
  forall (cl : Closure) (w : World) (pending : option nat),
    let w1 := typed cl pending "" (exec (unawaited (clearHandler renderTemplate cl)) w) in
    container (exec (unawaited (inputHandler renderTemplate cl)) w1) = container w1.
Proof.
  intros [rc si cb data sf] [[u r s c] a ps ns tr un] pending w1. subst w1.
  unfold typed. unfold_widget. unfold debounceCallee. simpl.
  destruct cb as [b0|]; simpl.
  - destruct (renderTemplate "core_grades/searchwidget/searchresults"
                (JObj [("searchresults", data)])) as [[html js]|e] eqn:Hr; simpl.
    + destruct rc as [[]|]; destruct s as [i|]; destruct c as [b|]; simpl;
        rewrite ?Hr; simpl; rewrite ?Hr; simpl;
        unfold map_classList, map_clearSearch, map_search, map_region; simpl;
        rewrite ?token_add_idempotent;
        try reflexivity;
        try (destruct u; reflexivity); try (destruct r; reflexivity).
    + destruct s as [i|]; destruct c as [b|]; simpl;
        rewrite ?Hr; simpl; rewrite ?Hr; simpl;
        unfold map_classList, map_clearSearch, map_search, map_region; simpl;
        rewrite ?token_add_idempotent; reflexivity.
  - destruct s as [i|]; reflexivity.
Qed.

(** X8: the clear button does not cancel a pending debounced search.  When
    the user clicks it while a call of the input handler is pending, that call
    still runs when it is due; it then reads the emptied input, so it hides
    the clear button and renders the whole dataset once more, and the
    container ends exactly as the click left it. *)
Theorem clear_click_during_pending_search :
  forall (cl : Closure) (w : World) (d T : nat) (v : string),
    search (container w) <> None ->
    d <= T ->
    let clicked := exec (unawaited (clearHandler renderTemplate cl))
                        (typed cl (Some d) v w) in
    exec (advance renderTemplate T) clicked
    = exec (unawaited (inputHandler renderTemplate cl))
           (exec (unawaited (clearHandler renderTemplate cl)) (typed cl None v w)) /\
    container (exec (advance renderTemplate T) clicked)
    = container (exec (unawaited (clearHandler renderTemplate cl)) (typed cl None v w)).
Proof.
  intros cl w d T v Hs HT clicked. subst clicked.
  set (w1 := exec (unawaited (clearHandler renderTemplate cl)) w).
  assert (Hclick : forall pending,
             exec (unawaited (clearHandler renderTemplate cl)) (typed cl pending v w)
             = typed cl pending "" w1).
  { intro pending. unfold exec at 1. rewrite clearHandler_typed by exact Hs.
    reflexivity. }
  assert (Hfire : exec (advance renderTemplate T) (typed cl (Some d) "" w1)
                  = exec (unawaited (inputHandler renderTemplate cl))
                         (typed cl None "" w1)).
  { unfold exec at 1.
    rewrite advance_typed by (apply clearHandler_keeps_search; exact Hs).
    apply Nat.leb_le in HT. rewrite HT. reflexivity. }
  rewrite !Hclick, Hfire. split; [reflexivity|].
  apply inputHandler_after_clearHandler.
Qed.

End PendingSearch.

Lemma clear_click_during_pending_search_witness :
  container (exec (advance Demo.renderTemplate 1300) DemoEdge.clickedWhilePending)
  = container (exec (unawaited (clearHandler Demo.renderTemplate Demo.closure))
                    (typed Demo.closure None "a" Demo.ready)).
Proof.
  apply (proj2 (clear_click_during_pending_search Demo.renderTemplate Demo.closure
                  Demo.ready 1300 1300 "a" ltac:(simpl; discriminate) (le_n 1300))).
Defined.

(** ** Typing on a widget without a clear button *)

Section Typing.

Variable renderTemplate : string -> JsVal -> Settled (Html * Js).

Lemma inputHandler_null_clear_button :
  forall (cl : Closure) (w : World),
    cClearSearchButton cl = None ->
    inputHandler renderTemplate cl w
    = (Rejected (TypeError "Cannot read properties of null (reading 'classList')"), w).
Proof.
  intros [rc si cb data sf] w Hcb. simpl in Hcb. subst cb.
  unfold_widget. simpl.
  destruct (0 <? String.length match search (container w) with
                                 | Some i => value i
                                 | None => ""
                                 end)%nat; reflexivity.
Qed.

(** X9: when the input listener holds [null] for the clear button (the body
    had none), typing never filters.  Once the debounced call is due the
    handler throws a [TypeError] before it reaches the search function or a
    template: the world is the one the keystroke left, plus one unhandled
    rejection; no cycle starts and the results region is not touched. *)
Theorem typing_without_clear_button :
  forall (cl : Closure) (w : World) (i : HTMLInputElement) (t T : nat) (v : string),
    search (container w) = Some i ->
    inputListeners i = [debounce cl 300] ->
    cClearSearchButton cl = None ->
    t + 300 <= T ->
    let w' := exec (input_event renderTemplate t v ;;; advance renderTemplate T) w in
    w' = drop_rejection
           (TypeError "Cannot read properties of null (reading 'classList')")
           (exec (set_value searchControl v) w) /\
    cycles w' = cycles w /\
    searchResults (container w') = searchResults (container w).
Proof.
  intros cl w i t T v Hs Hl Hcb HT w'.
  assert (Hpresent : search (container w) <> None) by congruence.
  assert (Hw' : w' = drop_rejection
                       (TypeError "Cannot read properties of null (reading 'classList')")
                       (exec (set_value searchControl v) w)).
  { subst w'. unfold exec at 1. unfold bind.
    rewrite <- (typed_registered cl w i Hs Hl) at 1.
    rewrite input_event_typed; [| exact Hpresent | discriminate].
    rewrite advance_typed by exact Hpresent.
    apply Nat.leb_le in HT. rewrite HT. simpl.
    unfold exec at 1, unawaited.
    rewrite inputHandler_null_clear_button by exact Hcb. simpl.
    rewrite (typed_set_value cl w i v Hs Hl). reflexivity. }
  rewrite Hw'. repeat split.
Qed.

End Typing.

Lemma typing_without_clear_button_witness :
  cycles (exec (input_event Demo.renderTemplate 1000 "a" ;;;
                advance Demo.renderTemplate 1300) DemoEdge.noClear)
  = cycles DemoEdge.noClear.
Proof.
  apply (typing_without_clear_button Demo.renderTemplate
           (registeredClosure (exec (set_container_innerHTML DemoEdge.noClearBody) Demo.page)
                              Demo.names Demo.searchFunc)
           DemoEdge.noClear
           {| value := "";
              inputListeners :=
                [debounce (registeredClosure
                             (exec (set_container_innerHTML DemoEdge.noClearBody) Demo.page)
                             Demo.names Demo.searchFunc) 300] |}
           1000 1300 "a").
  - reflexivity.
  - reflexivity.
  - reflexivity.
  - apply le_n.
Defined.

Example demo_noClear :
  notifications DemoEdge.noClear
  = [TypeError "Cannot read properties of null (reading 'addEventListener')"]
  /\ searchResults (container DemoEdge.noClear)
     = Some "<li>Alice</li><li>Bob</li><li>Charlie</li>"
  /\ activeElement DemoEdge.noClear = Some searchControl.
Proof. repeat split. Qed.

(** ** Keystrokes separated by pauses *)

Section SlowTyping.

Variable renderTemplate : string -> JsVal -> Settled (Html * Js).

Lemma inputHandler_keeps_search :
  forall (cl : Closure) (w : World),
    search (container (exec (unawaited (inputHandler renderTemplate cl)) w))
    = search (container w).
Proof.
  intros [rc si cb data sf] [[u r s c] a ps ns tr un].
  unfold_widget. simpl.
  destruct cb as [b0|]; simpl;
    destruct (0 <? String.length match s with
                                   | Some i => value i
                                   | None => ""
                                   end)%nat; simpl; try reflexivity;
    match goal with
    | |- context [renderTemplate ?name ?ctx] =>
        destruct (renderTemplate name ctx) as [[html js]|e]
    end; simpl; try reflexivity;
    destruct rc as [[]|]; reflexivity.
Qed.

(** The results renders of one run of the input handler. *)
Lemma inputHandler_renders :
  forall (cl : Closure) (w : World) (i : HTMLInputElement),
    search (container w) = Some i ->
    cClearSearchButton cl <> None ->
    filter is_results_render
           (trace (exec (unawaited (inputHandler renderTemplate cl)) w))
    = filter is_results_render (trace w)
      ++ [TemplateRender searchresultsTemplate
            (resultsContext (debounceCallee (value i) (cData cl) (cSearchFunc cl tt)))].
Proof.
  intros [rc si cb data sf] [[u r s c] a ps ns tr un] i Hs Hcb; simpl in *.
  subst s. destruct cb as [b0|]; [clear Hcb | congruence].
  unfold_widget. simpl.
  destruct (0 <? String.length (value i))%nat; simpl;
    match goal with
    | |- context [renderTemplate ?name ?ctx] =>
        destruct (renderTemplate name ctx) as [[html js]|e]
    end; simpl;
    try (destruct rc as [[]|]; simpl);
    rewrite ?filter_app; simpl; rewrite ?app_nil_r; reflexivity.
Qed.

Lemma typed_search :
  forall cl pending v w,
    search (container w) <> None ->
    search (container (typed cl pending v w))
    = Some {| value := v;
              inputListeners := [{| wait := 300; timeout := pending; callee := cl |}] |}.
Proof.
  intros cl pending v [[u r s c] a ps ns tr un] Hs; simpl in *.
  destruct s; [reflexivity | congruence].
Qed.

(** An 'input' event that comes when the pending call is due: the call runs
    first, then the timer is armed again. *)
Lemma input_event_due :
  forall cl d v w now v',
    search (container w) <> None ->
    d <= now ->
    input_event renderTemplate now v' (typed cl (Some d) v w)
    = (Fulfilled tt,
       typed cl (Some (now + 300)) v'
             (exec (unawaited (inputHandler renderTemplate cl)) (typed cl None v w))).
Proof.
  intros cl d v w now v' Hs Hd.
  unfold input_event, bind. rewrite advance_typed by exact Hs.
  apply Nat.leb_le in Hd. rewrite Hd.
  pose proof (inputHandler_keeps_search cl (typed cl None v w)) as Hkeep.
  rewrite (typed_search cl None v w Hs) in Hkeep.
  destruct (exec (unawaited (inputHandler renderTemplate cl)) (typed cl None v w))
    as [[u r s c] a ps ns tr un]; simpl in *. subst s. reflexivity.
Qed.

Lemma play_spaced :
  forall events cl d v w,
    search (container w) <> None ->
    cClearSearchButton cl <> None ->
    spaced d events ->
    exists w' v',
      play renderTemplate events (typed cl (Some d) v w)
      = (Fulfilled tt, typed cl (Some (last_due d events)) v' w') /\
      search (container w') <> None /\
      filter is_results_render (trace (exec (unawaited (inputHandler renderTemplate cl))
                                            (typed cl None v' w')))
      = filter is_results_render (trace (exec (unawaited (inputHandler renderTemplate cl))
                                              (typed cl None v w)))
        ++ map (fun ev => TemplateRender searchresultsTemplate
                            (resultsContext
                               (debounceCallee (snd ev) (cData cl) (cSearchFunc cl tt))))
               events.
Proof.
  induction events as [|[t v1] rest IH]; intros cl d v w Hs Hcb Hsp; simpl in *.
  - exists w, v. rewrite app_nil_r. repeat split. exact Hs.
  - destruct Hsp as [Hd Hrest].
    unfold bind. rewrite input_event_due by assumption.
    set (w1 := exec (unawaited (inputHandler renderTemplate cl)) (typed cl None v w)).
    assert (Hs1 : search (container w1) <> None).
    { unfold w1. rewrite inputHandler_keeps_search, (typed_search cl None v w Hs).
      discriminate. }
    destruct (IH cl (t + 300) v1 w1 Hs1 Hcb Hrest) as [w' [v' [Hplay [Hs' Htr]]]].
    exists w', v'. split; [exact Hplay | split; [exact Hs'|]].
    rewrite Htr.
    rewrite (inputHandler_renders cl (typed cl None v1 w1) _
               (typed_search cl None v1 w1 Hs1) Hcb). simpl.
    rewrite <- app_assoc. reflexivity.
Qed.

(** X10: keystrokes that are not coalesced.  When every 'input' event comes
    at least 300ms after the one before it, each event gets a filter-and-render
    cycle of its own: once the last call is due, the results template has been
    rendered once per event, in the order of the events, each time for the
    value that event left in the input. *)
Theorem spaced_inputs_each_filter :
  forall (cl : Closure) (w : World) (i : HTMLInputElement)
         (t : nat) (v : string) (rest : list (nat * string)) (T : nat),
    search (container w) = Some i ->
    inputListeners i = [debounce cl 300] ->
    cClearSearchButton cl <> None ->
    spaced (t + 300) rest ->
    last_due (t + 300) rest <= T ->
    let w' := exec (play renderTemplate ((t, v) :: rest) ;;; advance renderTemplate T) w in
    filter is_results_render (trace w')
    = filter is_results_render (trace w)
      ++ map (fun ev => TemplateRender searchresultsTemplate
                          (resultsContext
                             (debounceCallee (snd ev) (cData cl) (cSearchFunc cl tt))))
             ((t, v) :: rest) /\
    cycles w' = cycles w + S (length rest).
Proof.
  intros cl w i t v rest T Hs Hl Hcb Hsp HT w'.
  assert (Hpresent : search (container w) <> None) by congruence.
  assert (Htrace : filter is_results_render (trace w')
                   = filter is_results_render (trace w)
                     ++ map (fun ev => TemplateRender searchresultsTemplate
                                         (resultsContext
                                            (debounceCallee (snd ev) (cData cl)
                                                            (cSearchFunc cl tt))))
                            ((t, v) :: rest)).
  { subst w'. unfold exec at 1. simpl. unfold bind at 1 2.
    rewrite <- (typed_registered cl w i Hs Hl) at 1.
    rewrite input_event_typed; [| exact Hpresent | discriminate].
    destruct (play_spaced rest cl (t + 300) v w Hpresent Hcb Hsp)
      as [w1 [v1 [Hplay [Hs1 Htr]]]].
    rewrite Hplay. rewrite advance_typed by exact Hs1.
    apply Nat.leb_le in HT. rewrite HT. cbn [snd].
    rewrite Htr.
    rewrite (inputHandler_renders cl (typed cl None v w) _
               (typed_search cl None v w Hpresent) Hcb).
    simpl. rewrite <- app_assoc. reflexivity. }
  split; [exact Htrace|].
  unfold cycles. rewrite Htrace, length_app. simpl. rewrite length_map. reflexivity.
Qed.

End SlowTyping.

Lemma spaced_inputs_each_filter_witness :
  cycles (exec (play Demo.renderTemplate DemoEdge.slowTyping ;;;
                advance Demo.renderTemplate 2000) Demo.ready)
  = cycles Demo.ready + 3.
Proof.
  apply (proj2 (spaced_inputs_each_filter Demo.renderTemplate Demo.closure Demo.ready
                  {| value := ""; inputListeners := [debounce Demo.closure 300] |}
                  1000 "a" [(1300, "al"); (1700, "ali")] 2000
                  eq_refl eq_refl ltac:(discriminate)
                  ltac:(simpl; lia) ltac:(simpl; lia))).
Defined.

(** ** Deferred bodies are independent *)

Lemma update_nth_middle :
  forall (A : Type) (f : A -> A) (l : list A) (x : A) (rest : list A),
    update_nth (length l) f (l ++ x :: rest) = l ++ f x :: rest.
Proof.
  intros A f l x rest. induction l as [|y l IH]; simpl; [reflexivity|].
  rewrite IH. reflexivity.
Qed.

Lemma resolution_plain :
  forall v, is_thenable v = false -> resolution v = Some (Fulfilled v).
Proof. intros v H. destruct v; simpl in *; try discriminate; reflexivity. Qed.

(** X11: [promisesAndResolvers] keeps no state of its own.  Two calls give
    two different promises; resolving the first with a value [v] that is not
    a promise or thenable fulfils the first with [v], leaves the second
    pending, leaves every promise that existed before as it was, and does
    nothing to the page. *)
Theorem promisesAndResolvers_independent :
  forall (parseHTML : JsVal -> Markup)
         (renderTemplate : string -> JsVal -> Settled (Html * Js))
         (w : World) (v : JsVal),
    is_thenable v = false ->
    exists (r1 : BodyPromise) (w1 : World) (r2 : BodyPromise) (w2 : World),
      promisesAndResolvers w = (Fulfilled r1, w1) /\
      promisesAndResolvers w1 = (Fulfilled r2, w2) /\
      bodyPromise r1 <> bodyPromise r2 /\
      let w3 := exec (call_resolver parseHTML renderTemplate (bodyPromiseResolver r1) v) w2 in
      promise_state (bodyPromise r1) w3 = Some (Settle (Fulfilled v)) /\
      promise_state (bodyPromise r2) w3 = Some Pending /\
      (forall p, p < length (promises w) -> promise_state p w3 = promise_state p w) /\
      same_page w3 w.
Proof.
  intros parseHTML renderTemplate w v Hplain.
  eexists. eexists. eexists. eexists.
  split; [reflexivity|]. split; [reflexivity|].
  simpl. rewrite length_app. simpl.
  split; [lia|].
  unfold exec, call_resolver. rewrite (resolution_plain v Hplain).
  unfold settle; simpl.
  set (fresh := {| pstate := Pending; reactions := [] |}).
  assert (Hstore : (promises w ++ [fresh]) ++ [fresh] = promises w ++ fresh :: [fresh]).
  { rewrite <- app_assoc. reflexivity. }
  rewrite Hstore.
  rewrite nth_error_app2 by lia. rewrite Nat.sub_diag. simpl.
  unfold promise_state; simpl. rewrite !Hstore, !update_nth_middle.
  repeat split.
  - rewrite nth_error_app2 by lia. rewrite Nat.sub_diag. reflexivity.
  - rewrite nth_error_app2 by lia.
    replace (length (promises w) + 1 - length (promises w)) with 1 by lia.
    reflexivity.
  - intros p Hp. rewrite nth_error_app1 by exact Hp. reflexivity.
Qed.

Lemma promisesAndResolvers_independent_witness :
  exists (r1 : BodyPromise) (w1 : World) (r2 : BodyPromise) (w2 : World),
    promisesAndResolvers Demo.page = (Fulfilled r1, w1) /\
    promisesAndResolvers w1 = (Fulfilled r2, w2) /\
    bodyPromise r1 <> bodyPromise r2 /\
    let w3 := exec (call_resolver Demo.parseHTML Demo.renderTemplate
                      (bodyPromiseResolver r1) (JStr "<widget/>")) w2 in
    promise_state (bodyPromise r1) w3 = Some (Settle (Fulfilled (JStr "<widget/>"))) /\
    promise_state (bodyPromise r2) w3 = Some Pending /\
    (forall p, p < length (promises Demo.page) ->
               promise_state p w3 = promise_state p Demo.page) /\
    same_page w3 Demo.page.
Proof.
  apply (promisesAndResolvers_independent Demo.parseHTML Demo.renderTemplate
           Demo.page (JStr "<widget/>")).
  reflexivity.
Defined.

(** * Interleaved runs of [init] *)

Lemma nth_error_map_task :
  forall (A B : Type) (f : A -> B) (l : list A) (i : nat),
    nth_error (map f l) i = option_map f (nth_error l i).
Proof.
  intros A B f l. induction l as [|x l IH]; intros [|i]; simpl; auto.
Qed.

Lemma remove_nth_map :
  forall (A B : Type) (f : A -> B) (l : list A) (i : nat),
    Interleaved.remove_nth i (map f l) = map f (Interleaved.remove_nth i l).
Proof.
  intros A B f l. induction l as [|x l IH]; intros [|i]; simpl; auto.
  rewrite IH. reflexivity.
Qed.

Section Stages.

Variable parseHTML : JsVal -> Markup.
Variable renderTemplate : string -> JsVal -> Settled (Html * Js).
Variable deferredReplace : bool.

(** The tasks that a resumed stage suspends on are the tasks of the stages
    that follow it. *)
Lemma resume_task :
  forall c data searchFunc st w,
    snd (Interleaved.resume renderTemplate
           (Interleaved.task deferredReplace c data searchFunc st) w)
    = map (Interleaved.task deferredReplace c data searchFunc)
          (Interleaved.next renderTemplate deferredReplace data st).
Proof.
  intros c data searchFunc st w. destruct st; simpl;
    unfold Interleaved.replaceNodeContents, Interleaved.afterLoader,
      Interleaved.afterResults, Interleaved.renderSearchResults, Interleaved.await;
    simpl.
  - destruct (renderTemplate "core_grades/searchwidget/loading" (JObj []))
      as [[lhtml ljs]|e]; simpl; [|reflexivity].
    destruct deferredReplace; simpl; reflexivity.
  - reflexivity.
  - reflexivity.
  - destruct (renderTemplate "core_grades/searchwidget/searchresults"
                (JObj [("searchresults", data)])) as [[rhtml rjs]|e]; simpl;
      [|reflexivity].
    destruct deferredReplace; simpl; reflexivity.
  - reflexivity.
  - reflexivity.
  - destruct (registerListenerEvents data searchFunc _) as [[[]|e] w']; reflexivity.
Qed.

Lemma turn_task :
  forall c data searchFunc i sts w,
    Interleaved.turn renderTemplate i
      (w, map (Interleaved.task deferredReplace c data searchFunc) sts)
    = match nth_error sts i with
      | Some st =>
          (fst (Interleaved.resume renderTemplate
                  (Interleaved.task deferredReplace c data searchFunc st) w),
           map (Interleaved.task deferredReplace c data searchFunc)
               (Interleaved.remove_nth i sts
                ++ Interleaved.next renderTemplate deferredReplace data st))
      | None => (w, map (Interleaved.task deferredReplace c data searchFunc) sts)
      end.
Proof.
  intros c data searchFunc i sts w. unfold Interleaved.turn. simpl.
  rewrite nth_error_map_task.
  destruct (nth_error sts i) as [st|]; simpl; [|reflexivity].
  pose proof (resume_task c data searchFunc st w) as Hnext.
  destruct (Interleaved.resume renderTemplate
              (Interleaved.task deferredReplace c data searchFunc st) w) as [w' ws].
  simpl in *. subst ws.
  rewrite remove_nth_map, map_app. reflexivity.
Qed.

(** The chain starts: the callback runs up to the render of the loading
    template. *)
Lemma start_fulfilled :
  forall r bodyContent w pool,
    Interleaved.start parseHTML deferredReplace r (Fulfilled bodyContent) (w, pool)
    = match Interleaved.injectBody parseHTML (reactionUnsearchable r) bodyContent w with
      | (Fulfilled c, w1) =>
          (record (TemplateRender loadingTemplate (JObj [])) w1,
           pool ++ map (Interleaved.task deferredReplace c (reactionData r)
                                         (reactionSearchFunc r))
                       [Interleaved.LoaderRender])
      | (Rejected e, w1) => (notify e w1, pool)
      end.
Proof.
  intros r bodyContent w pool.
  unfold Interleaved.start, Interleaved.onBodyContent, Interleaved.injectBody.
  unfold bind, set_container_innerHTML, querySelector, ret. simpl.
  destruct (truthy (reactionUnsearchable r)); simpl; [|reflexivity].
  destruct (is_some (unsearchableMarkup (parseHTML bodyContent))); simpl;
    [reflexivity | rewrite app_nil_r; reflexivity].
Qed.

End Stages.

Section OneChain.

Variable parseHTML : JsVal -> Markup.
Variable renderTemplate : string -> JsVal -> Settled (Html * Js).

(** The run-to-completion chain, split at the first [await]. *)
Lemma react_injectBody :
  forall r bodyContent w,
    exec (react parseHTML renderTemplate r (Fulfilled bodyContent)) w
    = match Interleaved.injectBody parseHTML (reactionUnsearchable r) bodyContent w with
      | (Fulfilled c, w1) =>
          exec (catch (await (showLoader renderTemplate c) ;;;
                       await (renderSearchResults renderTemplate c (reactionData r)) ;;;
                       registerListenerEvents (reactionData r) (reactionSearchFunc r))
                      Notification_exception) w1
      | (Rejected e, w1) => notify e w1
      end.
Proof.
  intros r bodyContent w.
  unfold react, onBodyContent, Interleaved.injectBody, exec, catch.
  unfold bind, set_container_innerHTML, querySelector, ret. simpl.
  destruct (truthy (reactionUnsearchable r)); simpl; [|reflexivity].
  destruct (is_some (unsearchableMarkup (parseHTML bodyContent))); simpl;
    reflexivity.
Qed.

End OneChain.

Section OneChainStages.

Variable parseHTML : JsVal -> Markup.
Variable renderTemplate : string -> JsVal -> Settled (Html * Js).
Variable r : Reaction.
Variable bodyContent : JsVal.
Variable w : World.
Variable c : option Element.
Variable w1 : World.
Hypothesis Hinject :
  Interleaved.injectBody parseHTML (reactionUnsearchable r) bodyContent w
  = (Fulfilled c, w1).

Lemma chain_at_turn :
  forall i cfg,
    Interleaved.chain_at parseHTML renderTemplate r bodyContent w c w1 cfg ->
    Interleaved.chain_at parseHTML renderTemplate r bodyContent w c w1
      (Interleaved.turn renderTemplate i cfg).
Proof.
  intros i cfg H. unfold Interleaved.chain_at in *.
  rewrite react_injectBody, Hinject in H |- *.
  destruct H as [H | [[lhtml [ljs [Hl [H | [H | [rhtml [rjs [Hr [H | H]]]]]]]]] | H]];
    subst cfg.
  - destruct i as [|i]; [|left; destruct i; reflexivity].
    unfold Interleaved.turn; simpl.
    change "core_grades/searchwidget/loading" with loadingTemplate.
    destruct (renderTemplate loadingTemplate (JObj [])) as [[lhtml ljs]|e] eqn:Hl.
    + right; left. exists lhtml, ljs. split; [reflexivity|]. left. reflexivity.
    + right; right. chain_tail. reflexivity.
  - right; left. exists lhtml, ljs. split; [exact Hl|].
    destruct i as [|i]; [|left; destruct i; reflexivity].
    right; left. reflexivity.
  - destruct i as [|i].
    2:{ right; left. exists lhtml, ljs. split; [exact Hl|].
        right; left. destruct i; reflexivity. }
    unfold Interleaved.turn; simpl.
    change "core_grades/searchwidget/searchresults" with searchresultsTemplate.
    change (JObj [("searchresults", reactionData r)])
      with (resultsContext (reactionData r)).
    destruct (renderTemplate searchresultsTemplate (resultsContext (reactionData r)))
      as [[rhtml rjs]|e] eqn:Hr.
    + right; left. exists lhtml, ljs. split; [exact Hl|].
      right; right. exists rhtml, rjs. split; [reflexivity|]. left. reflexivity.
    + right; right. chain_tail. reflexivity.
  - right; left. exists lhtml, ljs. split; [exact Hl|].
    right; right. exists rhtml, rjs. split; [exact Hr|].
    destruct i as [|i]; [|left; destruct i; reflexivity].
    right. reflexivity.
  - destruct i as [|i].
    2:{ right; left. exists lhtml, ljs. split; [exact Hl|].
        right; right. exists rhtml, rjs. split; [exact Hr|].
        right. destruct i; reflexivity. }
    right; right. unfold Interleaved.turn; simpl.
    chain_tail.
    match goal with
    | |- context [registerListenerEvents ?d ?f ?w0] =>
        destruct (registerListenerEvents d f w0) as [[[]|e] w2]
    end; reflexivity.
  - right; right. destruct i; reflexivity.
Qed.

(** A chain that replaces during the call is, after the turns of any
    schedule, at one of its [await]s or at its end, where it has done what
    the run-to-completion chain does. *)
Lemma chain_at_schedule :
  forall turns,
    Interleaved.chain_at parseHTML renderTemplate r bodyContent w c w1
      (Interleaved.schedule renderTemplate turns
         (Interleaved.start parseHTML false r (Fulfilled bodyContent) (w, []))).
Proof.
  intro turns.
  assert (H0 : Interleaved.chain_at parseHTML renderTemplate r bodyContent w c w1
                 (Interleaved.start parseHTML false r (Fulfilled bodyContent) (w, []))).
  { rewrite start_fulfilled, Hinject. left. reflexivity. }
  revert H0.
  generalize (Interleaved.start parseHTML false r (Fulfilled bodyContent) (w, [])).
  induction turns as [|i turns IH]; intros cfg H; simpl; [exact H|].
  apply IH, chain_at_turn, H.
Qed.

End OneChainStages.

(** A chain that stops before its first [await] has nothing left to do. *)
Lemma chain_stopped :
  forall parseHTML renderTemplate deferredReplace r bodyContent w e w1 turns,
    Interleaved.injectBody parseHTML (reactionUnsearchable r) bodyContent w
    = (Rejected e, w1) ->
    Interleaved.schedule renderTemplate turns
      (Interleaved.start parseHTML deferredReplace r (Fulfilled bodyContent) (w, []))
    = (exec (react parseHTML renderTemplate r (Fulfilled bodyContent)) w, []).
Proof.
  intros parseHTML renderTemplate deferredReplace r bodyContent w e w1 turns Hinject.
  rewrite start_fulfilled, react_injectBody, Hinject.
  induction turns as [|i turns IH]; simpl; [reflexivity|].
  destruct i; exact IH.
Qed.

(** ** Every interleaving of one chain *)

Lemma injectBody_fulfilled :
  forall parseHTML unsearchableContent bodyContent w c w1,
    Interleaved.injectBody parseHTML unsearchableContent bodyContent w
    = (Fulfilled c, w1) ->
    trace w1 = trace w /\
    searchResults (container w1) = resultsMarkup (parseHTML bodyContent) /\
    c = (if is_some (resultsMarkup (parseHTML bodyContent))
         then Some searchResultsRegion else None).
Proof.
  intros parseHTML unsearchableContent bodyContent w c w1.
  unfold Interleaved.injectBody, bind, set_container_innerHTML, querySelector, ret.
  simpl.
  destruct (truthy unsearchableContent); simpl.
  - destruct (is_some (unsearchableMarkup (parseHTML bodyContent))); simpl;
      intro H; [|discriminate].
    injection H as Hc Hw. subst c w1. simpl. repeat split.
  - intro H. injection H as Hc Hw. subst c w1. simpl. repeat split.
Qed.

Lemma injectBody_rejected :
  forall parseHTML unsearchableContent bodyContent w e w1,
    Interleaved.injectBody parseHTML unsearchableContent bodyContent w
    = (Rejected e, w1) ->
    trace w1 = trace w.
Proof.
  intros parseHTML unsearchableContent bodyContent w e w1.
  unfold Interleaved.injectBody, bind, set_container_innerHTML, querySelector, ret.
  simpl.
  destruct (truthy unsearchableContent); simpl.
  - destruct (is_some (unsearchableMarkup (parseHTML bodyContent))); simpl;
      intro H; [discriminate|].
    injection H as He Hw. subst w1. reflexivity.
  - discriminate.
Qed.

Lemma registerListenerEvents_trace :
  forall data searchFunc w,
    trace (snd (registerListenerEvents data searchFunc w)) = trace w.
Proof.
  intros data searchFunc w. unfold_widget. simpl.
  destruct (search (container w)); simpl; [|reflexivity].
  destruct (clearSearch (container w)); reflexivity.
Qed.

(** Both ways of running [init] on a body come down to one start of the
    chain, on the page as it was. *)
Lemma reached_start :
  forall parseHTML renderTemplate deferredReplace w p data searchFunc
         unsearchableContent bodyContent turns cfg,
    Interleaved.reached parseHTML renderTemplate deferredReplace w p data searchFunc
                        unsearchableContent bodyContent turns cfg ->
    exists w0,
      same_page w0 w /\
      cfg = Interleaved.schedule renderTemplate turns
              (Interleaved.start parseHTML deferredReplace
                 {| reactionData := data;
                    reactionSearchFunc := searchFunc;
                    reactionUnsearchable := unsearchableContent |}
                 (Fulfilled bodyContent) (w0, [])) /\
      initialised parseHTML renderTemplate w p data searchFunc unsearchableContent
                  (Fulfilled bodyContent)
                  (exec (react parseHTML renderTemplate
                           {| reactionData := data;
                              reactionSearchFunc := searchFunc;
                              reactionUnsearchable := unsearchableContent |}
                           (Fulfilled bodyContent)) w0).
Proof.
  intros parseHTML renderTemplate deferredReplace w p data searchFunc
         unsearchableContent bodyContent turns cfg [[Hp Hcfg]|[Hp Hcfg]].
  - eexists. split; [|split].
    2:{ subst cfg. unfold Interleaved.init, Interleaved.settle. simpl.
        rewrite Hp. simpl.
        rewrite (nth_error_update_nth _ _ _ _ _ Hp). simpl. reflexivity. }
    + repeat split.
    + left. split; [exact Hp|].
      unfold exec, bind, init, unawaited, then_catch.
      rewrite Hp; simpl. unfold settle; simpl.
      rewrite (nth_error_update_nth _ _ _ _ _ Hp); simpl.
      unfold bind. rewrite unawaited_react. simpl. reflexivity.
  - exists w. split; [repeat split|].
    pose proof Hp as Hstate.
    unfold promise_state in Hp.
    destruct (nth_error (promises w) p) as [cell|] eqn:Hc; [|discriminate].
    simpl in Hp. injection Hp as Hs.
    split.
    + subst cfg. unfold Interleaved.init. simpl. rewrite Hc, Hs. reflexivity.
    + right. split; [exact Hstate|].
      unfold exec, init, unawaited, then_catch. rewrite Hc, Hs.
      match goal with
      | |- _ = snd (match react _ _ ?r ?s ?w0 with _ => _ end) =>
          pose proof (react_fulfils parseHTML renderTemplate r s w0) as Hf;
          unfold result in Hf;
          destruct (react parseHTML renderTemplate r s w0) as [[[]|e] w1]
      end; simpl in *; [reflexivity | discriminate].
Qed.

Lemma no_results_render :
  forall (l before after : list Event) (ev : Event),
    forallb (fun e => negb (is_results_render e)) l = true ->
    is_results_render ev = true ->
    l <> before ++ ev :: after.
Proof.
  intros l before after ev Hl Hev H. subst l.
  rewrite forallb_app in Hl. simpl in Hl. rewrite Hev in Hl.
  rewrite andb_false_r in Hl. discriminate.
Qed.

Lemma one_results_render :
  forall (l1 l2 before after : list Event) (x ev : Event),
    forallb (fun e => negb (is_results_render e)) l1 = true ->
    forallb (fun e => negb (is_results_render e)) l2 = true ->
    is_results_render ev = true ->
    l1 ++ x :: l2 = before ++ ev :: after ->
    before = l1 /\ ev = x /\ after = l2.
Proof.
  intros l1. induction l1 as [|a l1 IH]; intros l2 before after x ev H1 H2 Hev H.
  - destruct before as [|b before]; simpl in H.
    + injection H as Hx Hl. subst. repeat split.
    + injection H as Hx Hl. exfalso.
      exact (no_results_render _ _ _ _ H2 Hev Hl).
  - simpl in H1. apply andb_prop in H1. destruct H1 as [Ha H1].
    destruct before as [|b before]; simpl in H.
    + injection H as Hx Hl. subst a. rewrite Hev in Ha. discriminate.
    + injection H as Hx Hl. subst b.
      destruct (IH _ _ _ _ _ H1 H2 Hev Hl) as [Hb [He Hafter]].
      subst. repeat split.
Qed.

Section OneChainRuns.

Variable parseHTML : JsVal -> Markup.
Variable renderTemplate : string -> JsVal -> Settled (Html * Js).
Variable r : Reaction.
Variable bodyContent : JsVal.
Variable w : World.

(** Five turns end every chain that replaces during the call. *)
Lemma chain_at_completes :
  forall c w1 cfg,
    Interleaved.chain_at parseHTML renderTemplate r bodyContent w c w1 cfg ->
    snd (Interleaved.schedule renderTemplate (repeat 0 5) cfg) = [].
Proof.
  intros c w1 cfg H. unfold Interleaved.chain_at in H.
  destruct H as [H | [[lhtml [ljs [Hl [H | [H | [rhtml [rjs [Hr [H | H]]]]]]]]] | H]];
    subst cfg; unfold Interleaved.turn; simpl; unfold Interleaved.turn; simpl;
    chain_tail;
    repeat match goal with
           | |- context [renderTemplate ?n ?x] =>
               destruct (renderTemplate n x) as [[? ?]|?]; simpl
           | |- context [registerListenerEvents ?d ?f ?w0] =>
               destruct (registerListenerEvents d f w0) as [[[]|?] ?]; simpl
           end; reflexivity.
Qed.

End OneChainRuns.

(** ** The loading placeholder comes first *)

Section Unreported.

Variable parseHTML : JsVal -> Markup.
Variable renderTemplate : string -> JsVal -> Settled (Html * Js).

(** A chain that ends without a report has used both templates and made
    both replacements. *)
Lemma react_unreported :
  forall r bodyContent w0,
    resultsMarkup (parseHTML bodyContent) <> None ->
    notifications (exec (react parseHTML renderTemplate r (Fulfilled bodyContent)) w0)
    = notifications w0 ->
    exists lhtml ljs rhtml rjs,
      renderTemplate loadingTemplate (JObj []) = Fulfilled (lhtml, ljs) /\
      renderTemplate searchresultsTemplate (resultsContext (reactionData r))
      = Fulfilled (rhtml, rjs) /\
      trace (exec (react parseHTML renderTemplate r (Fulfilled bodyContent)) w0)
      = trace w0 ++ [TemplateRender loadingTemplate (JObj []);
                     NodeReplaced (Some searchResultsRegion) lhtml ljs;
                     TemplateRender searchresultsTemplate (resultsContext (reactionData r));
                     NodeReplaced (Some searchResultsRegion) rhtml rjs].
Proof.
  intros [data searchFunc unsearchableContent] bodyContent w0 Hres.
  unfold_widget. simpl.
  destruct (parseHTML bodyContent) as [um rm sm cm]; simpl in *.
  destruct rm as [r0|]; [clear Hres | congruence].
  destruct (renderTemplate "core_grades/searchwidget/loading" (JObj []))
    as [[lhtml ljs]|el];
    destruct (renderTemplate "core_grades/searchwidget/searchresults"
                (JObj [("searchresults", data)])) as [[rhtml rjs]|er];
    destruct unsearchableContent as [[|ch s]|]; simpl;
    destruct um as [u0|]; simpl;
    destruct sm as [s0|]; simpl;
    destruct cm as [c0|]; simpl;
    intros Hn;
    try (exfalso; exact (app_one_neq _ _ _ Hn));
    exists lhtml, ljs, rhtml, rjs; rewrite <- !app_assoc; repeat split.
Qed.

End Unreported.

(** C3: on a body that has a results region, and with a template service
    that replaces the contents of a node during the call of
    [replaceNodeContents] (which [showLoader] does not await), the order
    holds under every interleaving.  Wherever a run of [init] has got to, if
    a render of the results has begun, then the only things done before it
    were the render of the loading template and the replacement of the
    results region by it, and at the moment that render begins the region
    holds the placeholder.  A run that has ended and reported nothing has
    done all of it: loading template, placeholder, results template,
    results. *)
Theorem init_placeholder_before_results :
  forall (parseHTML : JsVal -> Markup)
         (renderTemplate : string -> JsVal -> Settled (Html * Js))
         (w : World) (p : PromiseId) (data : JsVal) (searchFunc : SearchFactory)
         (unsearchableContent : option string) (bodyContent : JsVal)
         (turns : list nat) (cfg : Interleaved.Config),
    Interleaved.reached parseHTML renderTemplate false w p data searchFunc
                        unsearchableContent bodyContent turns cfg ->
    resultsMarkup (parseHTML bodyContent) <> None ->
    (forall (before after : list Event) (context : JsVal),
        trace (fst cfg)
        = trace w ++ before ++ TemplateRender searchresultsTemplate context :: after ->
        exists (lhtml : Html) (ljs : Js),
          renderTemplate loadingTemplate (JObj []) = Fulfilled (lhtml, ljs) /\
          before = [TemplateRender loadingTemplate (JObj []);
                    NodeReplaced (Some searchResultsRegion) lhtml ljs] /\
          context = resultsContext data /\
          (after = [] -> searchResults (container (fst cfg)) = Some lhtml)) /\
    (snd cfg = [] ->
     notifications (fst cfg) = notifications w ->
     exists (lhtml : Html) (ljs : Js) (rhtml : Html) (rjs : Js),
       renderTemplate loadingTemplate (JObj []) = Fulfilled (lhtml, ljs) /\
       renderTemplate searchresultsTemplate (resultsContext data)
       = Fulfilled (rhtml, rjs) /\
       trace (fst cfg)
       = trace w ++ [TemplateRender loadingTemplate (JObj []);
                     NodeReplaced (Some searchResultsRegion) lhtml ljs;
                     TemplateRender searchresultsTemplate (resultsContext data);
                     NodeReplaced (Some searchResultsRegion) rhtml rjs]).
Proof.
  intros parseHTML renderTemplate w p data searchFunc unsearchableContent
         bodyContent turns cfg Hrun Hres.
  destruct (reached_start _ _ _ _ _ _ _ _ _ _ _ Hrun)
    as [w0 [[_ [_ [Hn0 [Ht _]]]] [Hcfg _]]].
  clear Hrun. split.
  2:{ intros Hdone Hn.
      pose (r := {| reactionData := data;
                    reactionSearchFunc := searchFunc;
                    reactionUnsearchable := unsearchableContent |}).
      fold r in Hcfg.
      assert (Hend : fst cfg
                     = exec (react parseHTML renderTemplate r (Fulfilled bodyContent)) w0).
      { destruct (Interleaved.injectBody parseHTML unsearchableContent bodyContent w0)
          as [[c|e] w1] eqn:Hinject.
        - pose proof (chain_at_schedule parseHTML renderTemplate r _ _ _ _ Hinject turns)
            as Hat.
          rewrite <- Hcfg in Hat. unfold Interleaved.chain_at in Hat.
          destruct Hat
            as [H | [[lhtml [ljs [Hl [H | [H | [rhtml [rjs [Hr [H | H]]]]]]]]] | H]];
            rewrite H in Hdone |- *; try discriminate Hdone.
          reflexivity.
        - rewrite (chain_stopped parseHTML renderTemplate false r _ _ _ _ turns Hinject)
            in Hcfg.
          rewrite Hcfg. reflexivity. }
      rewrite Hend in Hn |- *. rewrite <- Hn0 in Hn. rewrite <- Ht.
      exact (react_unreported parseHTML renderTemplate r bodyContent w0 Hres Hn). }
  intros before after context Htrace.
  rewrite <- Ht in Htrace. clear Ht Hn0.
  pose (r := {| reactionData := data;
                reactionSearchFunc := searchFunc;
                reactionUnsearchable := unsearchableContent |}).
  fold r in Hcfg.
  assert (Hrender : is_results_render (TemplateRender searchresultsTemplate context)
                    = true) by reflexivity.
  destruct (Interleaved.injectBody parseHTML unsearchableContent bodyContent w0)
    as [[c|e] w1] eqn:Hinject.
  2:{ exfalso.
      rewrite (chain_stopped parseHTML renderTemplate false r _ _ _ _ turns Hinject)
        in Hcfg.
      subst cfg.
      rewrite react_injectBody in Htrace. simpl in Htrace.
      rewrite Hinject in Htrace. simpl in Htrace.
      rewrite (injectBody_rejected _ _ _ _ _ _ Hinject) in Htrace.
      rewrite <- (app_nil_r (trace w0)) in Htrace at 1.
      apply app_inv_head in Htrace.
      refine (no_results_render [] _ _ _ _ Hrender Htrace); reflexivity. }
  destruct (injectBody_fulfilled _ _ _ _ _ _ Hinject) as [Ht1 [Hregion Hc]].
  destruct (resultsMarkup (parseHTML bodyContent)) as [r0|]; [clear Hres | congruence].
  simpl in Hc. subst c.
  pose proof (chain_at_schedule parseHTML renderTemplate r _ _ _ _ Hinject turns)
    as Hat.
  subst r.
  rewrite <- Hcfg in Hat. clear Hcfg.
  unfold Interleaved.chain_at in Hat.
  rewrite react_injectBody in Hat. simpl in Hat. rewrite Hinject in Hat.
  destruct Hat as [H | [[lhtml [ljs [Hl [H | [H | [rhtml [rjs [Hr [H | H]]]]]]]]] | H]];
    subst cfg.
  - exfalso. simpl in Htrace. rewrite Ht1 in Htrace.
    apply app_inv_head in Htrace.
    refine (no_results_render _ _ _ _ _ Hrender Htrace); reflexivity.
  - exfalso. simpl in Htrace. rewrite Ht1, <- app_assoc in Htrace.
    apply app_inv_head in Htrace.
    refine (no_results_render _ _ _ _ _ Hrender Htrace); reflexivity.
  - simpl in Htrace. rewrite Ht1, <- !app_assoc in Htrace.
    apply app_inv_head in Htrace.
    destruct (one_results_render
                [TemplateRender loadingTemplate (JObj []);
                 NodeReplaced (Some searchResultsRegion) lhtml ljs] []
                _ _ _ _ eq_refl eq_refl Hrender Htrace) as [Hb [Hev Ha]].
    exists lhtml, ljs. injection Hev as Hctx.
    repeat split; try assumption.
    intros _. simpl. rewrite Hregion. reflexivity.
  - simpl in Htrace. rewrite Ht1, <- !app_assoc in Htrace.
    apply app_inv_head in Htrace.
    destruct (one_results_render
                [TemplateRender loadingTemplate (JObj []);
                 NodeReplaced (Some searchResultsRegion) lhtml ljs]
                [NodeReplaced (Some searchResultsRegion) rhtml rjs]
                _ _ _ _ eq_refl eq_refl Hrender Htrace) as [Hb [Hev Ha]].
    exists lhtml, ljs. injection Hev as Hctx.
    repeat split; try assumption.
    intros Hnil. rewrite Hnil in Ha. discriminate.
  - simpl in Htrace. rewrite Ht1, <- !app_assoc in Htrace.
    apply app_inv_head in Htrace.
    destruct (one_results_render
                [TemplateRender loadingTemplate (JObj []);
                 NodeReplaced (Some searchResultsRegion) lhtml ljs]
                [NodeReplaced (Some searchResultsRegion) rhtml rjs]
                _ _ _ _ eq_refl eq_refl Hrender Htrace) as [Hb [Hev Ha]].
    exists lhtml, ljs. injection Hev as Hctx.
    repeat split; try assumption.
    intros Hnil. rewrite Hnil in Ha. discriminate.
  - revert Htrace.
    unfold exec, catch, bind, await, unawaited, showLoader, renderSearchResults,
      Templates_renderForPromise, Templates_replaceNodeContents,
      Notification_exception. simpl.
    change "core_grades/searchwidget/loading" with loadingTemplate.
    change "core_grades/searchwidget/searchresults" with searchresultsTemplate.
    change (JObj [("searchresults", data)]) with (resultsContext data).
    destruct (renderTemplate loadingTemplate (JObj [])) as [[lhtml ljs]|el];
      simpl.
    2:{ intro Htrace. exfalso. rewrite Ht1 in Htrace.
        apply app_inv_head in Htrace.
        refine (no_results_render _ _ _ _ _ Hrender Htrace); reflexivity. }
    destruct (renderTemplate searchresultsTemplate (resultsContext data))
      as [[rhtml rjs]|er]; simpl.
    + match goal with
      | |- context [registerListenerEvents ?d ?f ?w2] =>
          pose proof (registerListenerEvents_trace d f w2) as Hreg;
          destruct (registerListenerEvents d f w2) as [[[]|e] w3]
      end; simpl in Hreg |- *; rewrite Hreg, Ht1, <- !app_assoc; intro Htrace;
        apply app_inv_head in Htrace;
        destruct (one_results_render
                    [TemplateRender loadingTemplate (JObj []);
                     NodeReplaced (Some searchResultsRegion) lhtml ljs]
                    [NodeReplaced (Some searchResultsRegion) rhtml rjs]
                    _ _ _ _ eq_refl eq_refl Hrender Htrace) as [Hb [Hev Ha]];
        exists lhtml, ljs; injection Hev as Hctx;
        (repeat split; try assumption);
        intros Hnil; rewrite Hnil in Ha; discriminate.
    + rewrite Ht1, <- !app_assoc. intro Htrace.
      apply app_inv_head in Htrace.
      destruct (one_results_render
                  [TemplateRender loadingTemplate (JObj []);
                   NodeReplaced (Some searchResultsRegion) lhtml ljs] []
                  _ _ _ _ eq_refl eq_refl Hrender Htrace) as [Hb [Hev Ha]].
      exists lhtml, ljs. injection Hev as Hctx.
      repeat split; try assumption.
      intros _. rewrite Hregion. reflexivity.
Qed.

Lemma init_placeholder_before_results_witness :
  (exists (lhtml : Html) (ljs : Js),
      Demo.renderTemplate loadingTemplate (JObj []) = Fulfilled (lhtml, ljs) /\
      [TemplateRender loadingTemplate (JObj []);
       NodeReplaced (Some searchResultsRegion) "<loading/>" ""]
      = [TemplateRender loadingTemplate (JObj []);
         NodeReplaced (Some searchResultsRegion) lhtml ljs] /\
      resultsContext Demo.names = resultsContext Demo.names /\
      (@nil Event = [] ->
       searchResults
         (container (fst (Interleaved.schedule Demo.renderTemplate [0; 0]
                            (DemoInterleaved.arrived false))))
       = Some lhtml)) /\
  (exists (lhtml : Html) (ljs : Js) (rhtml : Html) (rjs : Js),
      Demo.renderTemplate loadingTemplate (JObj []) = Fulfilled (lhtml, ljs) /\
      Demo.renderTemplate searchresultsTemplate (resultsContext Demo.names)
      = Fulfilled (rhtml, rjs) /\
      trace (fst (Interleaved.schedule Demo.renderTemplate (repeat 0 5)
                    (DemoInterleaved.arrived false)))
      = trace Demo.waiting
        ++ [TemplateRender loadingTemplate (JObj []);
            NodeReplaced (Some searchResultsRegion) lhtml ljs;
            TemplateRender searchresultsTemplate (resultsContext Demo.names);
            NodeReplaced (Some searchResultsRegion) rhtml rjs]).
Proof.
  split.
  - refine (proj1 (init_placeholder_before_results Demo.parseHTML Demo.renderTemplate
                     Demo.waiting 0 Demo.names Demo.searchFunc None (JStr "<widget/>")
                     [0; 0]
                     (Interleaved.schedule Demo.renderTemplate [0; 0]
                        (DemoInterleaved.arrived false)) _ _)
                  [TemplateRender loadingTemplate (JObj []);
                   NodeReplaced (Some searchResultsRegion) "<loading/>" ""]
                  [] (resultsContext Demo.names) _).
    + left. split; reflexivity.
    + simpl. discriminate.
    + reflexivity.
  - refine (proj2 (init_placeholder_before_results Demo.parseHTML Demo.renderTemplate
                     Demo.waiting 0 Demo.names Demo.searchFunc None (JStr "<widget/>")
                     (repeat 0 5)
                     (Interleaved.schedule Demo.renderTemplate (repeat 0 5)
                        (DemoInterleaved.arrived false)) _ _) _ _).
    + left. split; reflexivity.
    + simpl. discriminate.
    + reflexivity.
    + reflexivity.
Defined.

(** C3 fails as it is worded: a body that has the search input and the clear
    button and no results region.  The run of [init] reports nothing and
    registers both listeners; both replacements go to no node, and neither
    when the render of the results begins nor at the end does the container
    hold the placeholder. *)
Lemma init_without_results_region :
  Interleaved.reached DemoInterleaved.parseHTML Demo.renderTemplate false Demo.waiting 0
    Demo.names Demo.searchFunc None (JStr "<widget-noresults/>") [0; 0]
    (Interleaved.schedule Demo.renderTemplate [0; 0] DemoInterleaved.arrivedNoResults) /\
  trace (fst (Interleaved.schedule Demo.renderTemplate [0; 0]
                DemoInterleaved.arrivedNoResults))
  = [TemplateRender loadingTemplate (JObj []);
     NodeReplaced None "<loading/>" "";
     TemplateRender searchresultsTemplate (resultsContext Demo.names)] /\
  searchResults (container (fst (Interleaved.schedule Demo.renderTemplate [0; 0]
                                   DemoInterleaved.arrivedNoResults)))
  = None /\
  let done := Interleaved.schedule Demo.renderTemplate (repeat 0 5)
                DemoInterleaved.arrivedNoResults in
  snd done = [] /\
  notifications (fst done) = [] /\
  unhandled (fst done) = [] /\
  option_map (fun i => length (inputListeners i)) (search (container (fst done)))
  = Some 1 /\
  option_map (fun b => length (clickListeners b)) (clearSearch (container (fst done)))
  = Some 1 /\
  searchResults (container (fst done)) = None /\
  initialised DemoInterleaved.parseHTML Demo.renderTemplate Demo.waiting 0 Demo.names
              Demo.searchFunc None (Fulfilled (JStr "<widget-noresults/>")) (fst done).
Proof.
  split; [left; split; reflexivity|].
  repeat split. left. split; reflexivity.
Qed.

(** What the missing [await] in [showLoader] costs when the template service
    replaces later than during the call: the render of the results begins
    while the results region still holds the markup of the body, and a
    placeholder that lands last stays over the results. *)
Example deferred_placeholder_after_results :
  let begun := Interleaved.schedule Demo.renderTemplate [0; 1]
                 (DemoInterleaved.arrived true) in
  let done := Interleaved.schedule Demo.renderTemplate DemoInterleaved.replacementsLast
                (DemoInterleaved.arrived true) in
  trace (fst begun)
  = [TemplateRender loadingTemplate (JObj []);
     ReplaceRequested (Some searchResultsRegion) "<loading/>" "";
     TemplateRender searchresultsTemplate (resultsContext Demo.names)] /\
  searchResults (container (fst begun)) = Some "" /\
  snd done = [] /\
  notifications (fst done) = [] /\
  unhandled (fst done) = [] /\
  searchResults (container (fst done)) = Some "<loading/>".
Proof. repeat split. Qed.

(** ** Interleaved and run-to-completion runs agree *)

(** X13: when the template service replaces during the call, the order in
    which the suspended parts of a run of [init] go on makes no difference to
    where the run ends: whenever nothing is left suspended, the world is the
    one that the chain run in one go gives.  Five further turns end any such
    run. *)
Theorem interleaved_init_ends_as_initialised :
  forall (parseHTML : JsVal -> Markup)
         (renderTemplate : string -> JsVal -> Settled (Html * Js))
         (w : World) (p : PromiseId) (data : JsVal) (searchFunc : SearchFactory)
         (unsearchableContent : option string) (bodyContent : JsVal)
         (turns : list nat) (cfg : Interleaved.Config),
    Interleaved.reached parseHTML renderTemplate false w p data searchFunc
                        unsearchableContent bodyContent turns cfg ->
    (snd cfg = [] ->
     initialised parseHTML renderTemplate w p data searchFunc unsearchableContent
                 (Fulfilled bodyContent) (fst cfg)) /\
    snd (Interleaved.schedule renderTemplate (repeat 0 5) cfg) = [].
Proof.
  intros parseHTML renderTemplate w p data searchFunc unsearchableContent
         bodyContent turns cfg Hrun.
  destruct (reached_start _ _ _ _ _ _ _ _ _ _ _ Hrun) as [w0 [_ [Hcfg Hinit]]].
  clear Hrun.
  pose (r := {| reactionData := data;
                reactionSearchFunc := searchFunc;
                reactionUnsearchable := unsearchableContent |}).
  fold r in Hcfg, Hinit.
  destruct (Interleaved.injectBody parseHTML unsearchableContent bodyContent w0)
    as [[c|e] w1] eqn:Hinject.
  - pose proof (chain_at_schedule parseHTML renderTemplate r _ _ _ _ Hinject turns)
      as Hat.
    rewrite <- Hcfg in Hat. clear Hcfg. split.
    + intro Hdone. unfold Interleaved.chain_at in Hat.
      destruct Hat
        as [H | [[lhtml [ljs [Hl [H | [H | [rhtml [rjs [Hr [H | H]]]]]]]]] | H]];
        subst cfg; try discriminate Hdone.
      exact Hinit.
    + exact (chain_at_completes parseHTML renderTemplate r _ _ _ _ _ Hat).
  - rewrite (chain_stopped parseHTML renderTemplate false r _ _ _ _ turns Hinject)
      in Hcfg.
    subst cfg. split; [intros _; exact Hinit | reflexivity].
Qed.

Lemma interleaved_init_ends_as_initialised_witness :
  initialised Demo.parseHTML Demo.renderTemplate Demo.waiting 0 Demo.names
              Demo.searchFunc None (Fulfilled (JStr "<widget/>"))
              (fst (Interleaved.schedule Demo.renderTemplate [0; 3; 0; 0; 1; 0; 0]
                      (DemoInterleaved.arrived false))) /\
  snd (Interleaved.schedule Demo.renderTemplate (repeat 0 5)
         (Interleaved.schedule Demo.renderTemplate [0; 3; 0; 0; 1; 0; 0]
            (DemoInterleaved.arrived false))) = [].
Proof.
  destruct (interleaved_init_ends_as_initialised Demo.parseHTML Demo.renderTemplate
              Demo.waiting 0 Demo.names Demo.searchFunc None (JStr "<widget/>")
              [0; 3; 0; 0; 1; 0; 0]
              (Interleaved.schedule Demo.renderTemplate [0; 3; 0; 0; 1; 0; 0]
                 (DemoInterleaved.arrived false)))
    as [Hend Hturns].
  - left. split; reflexivity.
  - split; [apply Hend; reflexivity | exact Hturns].
Defined.

Example demo_interleaved_ready :
  fst (Interleaved.schedule Demo.renderTemplate [0; 3; 0; 0; 1; 0; 0]
         (DemoInterleaved.arrived false)) = Demo.ready.
Proof. vm_compute. reflexivity. Qed.

(** ** Overlapping calls of [init] *)

Lemma filter_remove_nth :
  forall (A : Type) (f : A -> bool) (l : list A) (i : nat) (x : A),
    nth_error l i = Some x ->
    length (filter f l)
    = (if f x then 1 else 0) + length (filter f (Interleaved.remove_nth i l)).
Proof.
  intros A f l. induction l as [|a l IH]; intros [|i] x H; simpl in *;
    try discriminate.
  - injection H as Ha. subst a. destruct (f x); reflexivity.
  - specialize (IH _ _ H). destruct (f a), (f x); simpl in *; lia.
Qed.

Section Overlap.

Variable renderTemplate : string -> JsVal -> Settled (Html * Js).
Variable deferredReplace : bool.
Variable data : JsVal.
Variable searchFunc : SearchFactory.
Variables (v0 : string) (c0 : list string).
Variables (lhtml : Html) (ljs : Js) (rhtml : Html) (rjs : Js).
Hypothesis Hl : renderTemplate loadingTemplate (JObj []) = Fulfilled (lhtml, ljs).
Hypothesis Hr :
  renderTemplate searchresultsTemplate (resultsContext data) = Fulfilled (rhtml, rjs).

(** The widget while [total] chains are under way on it: each chain that
    has ended has left one listener on the input and one on the button. *)
Lemma overlap_turn :
  forall total i cfg,
    overlapping data searchFunc deferredReplace v0 c0 total cfg ->
    overlapping data searchFunc deferredReplace v0 c0 total
                (Interleaved.turn renderTemplate i cfg).
Proof.
  intros total i [w' pool] [sts [n [Hpool [Hcount [Hs [Hc Hres]]]]]].
  simpl in *. subst pool. rewrite turn_task.
  destruct (nth_error sts i) as [st|] eqn:Hnth.
  2:{ exists sts, n. simpl. repeat split; assumption. }
  rewrite (filter_remove_nth _ mainStage _ _ _ Hnth) in Hcount.
  unfold loadingTemplate, searchresultsTemplate, resultsContext in Hl, Hr.
  destruct (searchResults (container w')) as [h|] eqn:Hh; [clear Hres|congruence].
  destruct st; simpl in Hcount |- *.
  - exists (Interleaved.remove_nth i sts
            ++ Interleaved.next renderTemplate deferredReplace data
                 Interleaved.LoaderRender), n.
    simpl. rewrite Hl. simpl.
    rewrite filter_app, length_app.
    unfold Interleaved.replaceNodeContents.
    destruct deferredReplace; simpl; rewrite ?Hh; simpl;
      (repeat split; [lia | assumption | assumption | discriminate || congruence]).
  - exists (Interleaved.remove_nth i sts), n. simpl. rewrite app_nil_r.
    rewrite Hh. simpl. repeat split; try assumption; try lia. discriminate.
  - exists (Interleaved.remove_nth i sts ++ [Interleaved.ResultsRender]), n.
    simpl. rewrite filter_app, length_app. simpl.
    repeat split; try assumption; try lia. congruence.
  - exists (Interleaved.remove_nth i sts
            ++ Interleaved.next renderTemplate deferredReplace data
                 Interleaved.ResultsRender), n.
    simpl. rewrite Hr. simpl.
    rewrite filter_app, length_app.
    unfold Interleaved.replaceNodeContents.
    destruct deferredReplace; simpl; rewrite ?Hh; simpl;
      (repeat split; [lia | assumption | assumption | discriminate || congruence]).
  - exists (Interleaved.remove_nth i sts ++ [Interleaved.ResultsShown]), n.
    simpl. rewrite filter_app, length_app. simpl. rewrite Hh. simpl.
    repeat split; try assumption; try lia. discriminate.
  - exists (Interleaved.remove_nth i sts ++ [Interleaved.ResultsDone]), n.
    simpl. rewrite filter_app, length_app. simpl.
    repeat split; try assumption; try lia. congruence.
  - exists (Interleaved.remove_nth i sts), (S n). simpl. rewrite app_nil_r.
    destruct w' as [[u rr s c] a ps ns tr un]. simpl in Hs, Hc, Hh. subst s c rr.
    unfold_widget. simpl.
    rewrite <- !repeat_cons.
    repeat split; try lia. discriminate.
Qed.

End Overlap.

Section OverlapRuns.

Variable parseHTML : JsVal -> Markup.
Variable renderTemplate : string -> JsVal -> Settled (Html * Js).
Variable deferredReplace : bool.
Variable data : JsVal.
Variable searchFunc : SearchFactory.
Variable unsearchableContent : option string.
Variable bodyContent : JsVal.
Variables (u0 r0 : Html) (v0 : string) (c0 : list string).
Hypothesis Hbody :
  parseHTML bodyContent = {| unsearchableMarkup := Some u0;
                             resultsMarkup := Some r0;
                             searchMarkup := Some v0;
                             clearMarkup := Some c0 |}.

(** One more chain starts on the body: the container is built afresh, and
    no chain has ended on it yet. *)
Lemma overlap_start :
  forall w sts,
    exists w1,
      Interleaved.start parseHTML deferredReplace
        {| reactionData := data;
           reactionSearchFunc := searchFunc;
           reactionUnsearchable := unsearchableContent |}
        (Fulfilled bodyContent)
        (w, map (Interleaved.task deferredReplace (Some searchResultsRegion)
                                  data searchFunc) sts)
      = (w1, map (Interleaved.task deferredReplace (Some searchResultsRegion)
                                   data searchFunc)
                 (sts ++ [Interleaved.LoaderRender])) /\
      search (container w1) = Some {| value := v0; inputListeners := [] |} /\
      clearSearch (container w1) = Some {| classList := c0; clickListeners := [] |} /\
      searchResults (container w1) <> None.
Proof.
  intros w sts. rewrite start_fulfilled.
  unfold Interleaved.injectBody, bind, set_container_innerHTML, querySelector,
    append_innerHTML, ret. simpl.
  rewrite Hbody. simpl.
  destruct (truthy unsearchableContent); simpl; eexists;
    rewrite map_app; simpl; (repeat split; discriminate).
Qed.

Lemma overlap_schedule :
  forall lhtml ljs rhtml rjs total turns cfg,
    renderTemplate loadingTemplate (JObj []) = Fulfilled (lhtml, ljs) ->
    renderTemplate searchresultsTemplate (resultsContext data)
    = Fulfilled (rhtml, rjs) ->
    overlapping data searchFunc deferredReplace v0 c0 total cfg ->
    overlapping data searchFunc deferredReplace v0 c0 total
                (Interleaved.schedule renderTemplate turns cfg).
Proof.
  intros lhtml ljs rhtml rjs total turns cfg Hl Hr.
  revert cfg. induction turns as [|i turns IH]; intros cfg H; simpl; [exact H|].
  apply IH.
  exact (overlap_turn renderTemplate deferredReplace data searchFunc v0 c0
           lhtml ljs rhtml rjs Hl Hr total i cfg H).
Qed.

End OverlapRuns.

(** Two calls of [init] on a pending promise: when it settles, the two
    chains start one after the other. *)
Lemma init_twice_settle :
  forall parseHTML deferredReplace w p data searchFunc unsearchableContent s,
    nth_error (promises w) p = Some {| pstate := Pending; reactions := [] |} ->
    exists w0,
      Interleaved.settle parseHTML deferredReplace p s
        (Interleaved.init parseHTML deferredReplace p data searchFunc
                          unsearchableContent
           (Interleaved.init parseHTML deferredReplace p data searchFunc
                             unsearchableContent (w, [])))
      = Interleaved.start parseHTML deferredReplace
          {| reactionData := data;
             reactionSearchFunc := searchFunc;
             reactionUnsearchable := unsearchableContent |} s
          (Interleaved.start parseHTML deferredReplace
             {| reactionData := data;
                reactionSearchFunc := searchFunc;
                reactionUnsearchable := unsearchableContent |} s (w0, [])).
Proof.
  intros parseHTML deferredReplace w p data searchFunc unsearchableContent s Hp.
  eexists.
  unfold Interleaved.init at 2. cbn [fst snd]. rewrite Hp. cbn [pstate].
  unfold Interleaved.init. cbn [fst snd promises with_promises].
  rewrite (nth_error_update_nth _ _ _ _ _ Hp). cbn [pstate reactions app].
  unfold Interleaved.settle. cbn [fst snd promises with_promises].
  erewrite nth_error_update_nth
    by (apply nth_error_update_nth; exact Hp).
  cbn [pstate reactions app fold_left]. reflexivity.
Qed.

(** X12: [init] is not reentrant.  Two calls of [init] on one pending body
    promise and one container, with a body that has all four parts and
    templates that render: both callbacks build the container when the body
    arrives, and both register their listeners on the nodes that the later
    one has built.  However the two chains interleave, and whether or not
    the replacements are done during the call, once both have ended the
    search input carries two debounced listeners and the clear button two
    click listeners. *)
Theorem init_twice_doubles_listeners :
  forall (parseHTML : JsVal -> Markup)
         (renderTemplate : string -> JsVal -> Settled (Html * Js))
         (deferredReplace : bool)
         (w : World) (p : PromiseId) (data : JsVal) (searchFunc : SearchFactory)
         (unsearchableContent : option string) (bodyContent : JsVal)
         (u0 r0 : Html) (v0 : string) (c0 : list string)
         (lhtml : Html) (ljs : Js) (rhtml : Html) (rjs : Js)
         (turns : list nat) (cfg : Interleaved.Config),
    nth_error (promises w) p = Some {| pstate := Pending; reactions := [] |} ->
    parseHTML bodyContent = {| unsearchableMarkup := Some u0;
                               resultsMarkup := Some r0;
                               searchMarkup := Some v0;
                               clearMarkup := Some c0 |} ->
    renderTemplate loadingTemplate (JObj []) = Fulfilled (lhtml, ljs) ->
    renderTemplate searchresultsTemplate (resultsContext data) = Fulfilled (rhtml, rjs) ->
    cfg = Interleaved.schedule renderTemplate turns
            (Interleaved.settle parseHTML deferredReplace p (Fulfilled bodyContent)
               (Interleaved.init parseHTML deferredReplace p data searchFunc
                                 unsearchableContent
                  (Interleaved.init parseHTML deferredReplace p data searchFunc
                                    unsearchableContent (w, [])))) ->
    snd cfg = [] ->
    let cl := {| cSearchResultsContainer := Some searchResultsRegion;
                 cSearchInput := searchControl;
                 cClearSearchButton := Some clearSearchControl;
                 cData := data;
                 cSearchFunc := searchFunc |} in
    search (container (fst cfg))
    = Some {| value := v0; inputListeners := [debounce cl 300; debounce cl 300] |} /\
    clearSearch (container (fst cfg))
    = Some {| classList := c0; clickListeners := [cl; cl] |}.
Proof.
  intros parseHTML renderTemplate deferredReplace w p data searchFunc
         unsearchableContent bodyContent u0 r0 v0 c0 lhtml ljs rhtml rjs turns cfg
         Hp Hbody Hl Hr Hcfg Hdone cl.
  assert (H : overlapping data searchFunc deferredReplace v0 c0 2 cfg).
  { subst cfg.
    apply (overlap_schedule renderTemplate deferredReplace data searchFunc v0 c0
             lhtml ljs rhtml rjs 2 turns _ Hl Hr).
    destruct (init_twice_settle parseHTML deferredReplace w p data searchFunc
                unsearchableContent (Fulfilled bodyContent) Hp) as [w0 Hstart].
    rewrite Hstart. clear Hstart.
    destruct (overlap_start parseHTML deferredReplace data searchFunc
                unsearchableContent bodyContent u0 r0 v0 c0 Hbody w0 [])
      as [w1 [H1 _]].
    cbn [map] in H1. rewrite H1.
    destruct (overlap_start parseHTML deferredReplace data searchFunc
                unsearchableContent bodyContent u0 r0 v0 c0 Hbody w1
                ([] ++ [Interleaved.LoaderRender]))
      as [w2 [H2 [Hs [Hc Hres]]]].
    rewrite H2.
    exists [Interleaved.LoaderRender; Interleaved.LoaderRender], 0.
    repeat split; assumption. }
  destruct H as [sts [n [Hpool [Hcount [Hs [Hc _]]]]]].
  rewrite Hdone in Hpool. symmetry in Hpool. apply map_eq_nil in Hpool. subst sts.
  simpl in Hcount. assert (n = 2) by lia. subst n.
  split; assumption.
Qed.

Lemma init_twice_doubles_listeners_witness :
  search (container (fst (Interleaved.schedule Demo.renderTemplate (repeat 0 10)
                            (DemoInterleaved.arrivedTwice false))))
  = Some {| value := "";
            inputListeners := [debounce Demo.closure 300; debounce Demo.closure 300] |} /\
  clearSearch (container (fst (Interleaved.schedule Demo.renderTemplate (repeat 0 10)
                                 (DemoInterleaved.arrivedTwice false))))
  = Some {| classList := ["btn"; "d-none"];
            clickListeners := [Demo.closure; Demo.closure] |}.
Proof.
  apply (init_twice_doubles_listeners Demo.parseHTML Demo.renderTemplate false
           Demo.waiting 0 Demo.names Demo.searchFunc None (JStr "<widget/>")
           "<h5>Other</h5>" "" "" ["btn"; "d-none"]
           "<loading/>" "" "<li>Alice</li><li>Bob</li><li>Charlie</li>" ""
           (repeat 0 10)
           (Interleaved.schedule Demo.renderTemplate (repeat 0 10)
              (DemoInterleaved.arrivedTwice false)));
    reflexivity.
Defined.
